(** * keras-transformer: the graph assembled by [transformer.py]

    A shallow embedding of [keras_transformer/transformer.py].  The Python
    module builds a Keras computation graph: every layer constructor
    registers a layer object, every call of a layer on tensors registers a
    node, and the functions of the module thread tensors from one call to
    the next.  The embedding keeps that shape: a graph is the append-only
    pair of the layers and the nodes created so far, a tensor is the index
    of the node that produced it, and the functions of the module run in a
    state-and-error monad over the graph. *)

From Stdlib Require Import ZArith List SpecFloat Ascii.
From stdpp Require Import base tactics option list strings pretty.

(** ** Data model *)

(** A numpy array of weights; only its identity matters to the builder. *)
Definition ndarray := list (list spec_float).

(** The [embed_weights] argument as Python sees it once it is not [None]:
    a bare array or a list of arrays ([isinstance(embed_weights, list)]). *)
Inductive weights_arg :=
  | WArray (a : ndarray)
  | WList (ws : list ndarray).

(** [TrigPosEmbedding.MODE_EXPAND], [MODE_ADD], [MODE_CONCAT]. *)
Inductive pos_mode := MODE_EXPAND | MODE_ADD | MODE_CONCAT.

(** The layer classes the module instantiates, with the keyword arguments
    it passes to each constructor. *)
Inductive layer_config :=
  | InputLayer
  | Embedding (input_dim output_dim : Z) (weights : option weights_arg)
              (trainable : bool)
  | TrigPosEmbedding (mode : pos_mode)
  | MultiHeadAttention (head_num : Z) (activation : string)
                       (history_only : bool)
  | FeedForward (units : Z) (activation : string)
  | LayerNormalization
  | Dropout (rate : spec_float)
  | Add
  | Dense (units : Z) (activation : string).

Record layer := Layer { layer_name : string; layer_kind : layer_config }.

(** A tensor is the output of a node; a layer object is referred to by the
    position at which it was created. *)
Abbreviation tensor := nat (only parsing).
Abbreviation layer_ref := nat (only parsing).

(** What a layer is called on: one tensor, or a Python list of tensors. *)
Inductive call_arg :=
  | Single (t : tensor)
  | Multi (ts : list tensor).

Record node := Node { node_layer : layer_ref; node_inputs : call_arg }.

Record graph := Graph { layers : list layer; nodes : list node }.

Definition empty_graph : graph := Graph [] [].

(** [keras.models.Model(inputs=..., outputs=...)]. *)
Record model := Model { inputs : list tensor; outputs : tensor }.

(** ** The construction monad: graph state, [None] for a raised exception *)

Definition M (A : Type) : Type := graph -> option (A * graph).

#[global] Instance M_ret : MRet M := fun A x g => Some (x, g).
#[global] Instance M_bind : MBind M := fun A B f m g =>
  match m g with
  | Some (x, g') => f x g'
  | None => None
  end.

Definition raise {A} : M A := fun _ => None.

(** Keras primitives.  The layer classes live in external packages
    ([keras], [keras_layer_normalization], [keras_multi_head],
    [keras_position_wise_feed_forward], [keras_pos_embd]); the builder uses
    them only to create a named layer object and to call it on tensors,
    which is what is recorded here.  Shape checks that those packages make
    at call time are theirs and are not part of the module. *)
Definition new_layer (l : layer) : M layer_ref := fun g =>
  Some (length (layers g), Graph (layers g ++ [l]) (nodes g)).

Definition call_layer (r : layer_ref) (x : call_arg) : M tensor := fun g =>
  Some (length (nodes g), Graph (layers g) (nodes g ++ [Node r x])).

(** [keras.layers.Input(shape=(None,), name=name)]: an input layer and its
    source node. *)
Definition Input (name : string) : M tensor :=
  l ← new_layer (Layer name InputLayer);
  call_layer l (Multi []).

(** [xs[0]] on a Python list: [IndexError] on the empty list. *)
Definition index0 (xs : list tensor) : M tensor :=
  match xs with
  | [] => raise
  | x :: _ => mret x
  end.

(** [x is None]. *)
Definition is_None {A} (x : option A) : bool :=
  match x with
  | None => true
  | Some _ => false
  end.

(** [range(n)]; empty when [n <= 0]. *)
Definition range (n : Z) : list Z := Z.of_nat <$> seq 0 (Z.to_nat n).

(** A [for] loop that rebinds one variable. *)
Fixpoint for_loop {A B} (xs : list A) (body : B -> A -> M B) (acc : B) : M B :=
  match xs with
  | [] => mret acc
  | x :: xs' => acc' ← body acc x; for_loop xs' body acc'
  end.

(** ** transformer.py *)

Definition _wrap_layer (name : string) (input_layer : call_arg)
    (build_func : call_arg -> M tensor) (dropout_rate : spec_float) : M tensor :=
  build_output ← build_func input_layer;
  norm ← new_layer (Layer (name +:+ "-Norm") LayerNormalization);
  normal_layer ← call_layer norm (Single build_output);
  dropout_layer ←
    (if SFltb (S754_zero false) dropout_rate then
       drop ← new_layer (Layer (name +:+ "-Dropout") (Dropout dropout_rate));
       call_layer drop (Single normal_layer)
     else mret normal_layer);
  input_layer' ←
    match input_layer with
    | Multi ts => index0 ts
    | Single t => mret t
    end;
  add ← new_layer (Layer (name +:+ "-Add") Add);
  call_layer add (Multi [input_layer'; dropout_layer]).

Definition _attention_builder (name : string) (head_num : Z)
    (activation : string) (history_only : bool) : call_arg -> M tensor :=
  fun x =>
    l ← new_layer (Layer name (MultiHeadAttention head_num activation history_only));
    call_layer l x.

Definition _feed_forward_builder (name : string) (hidden_dim : Z)
    (activation : string) : call_arg -> M tensor :=
  fun x =>
    l ← new_layer (Layer name (FeedForward hidden_dim activation));
    call_layer l x.

Definition _get_encoder_component (name : string) (input_layer : tensor)
    (head_num hidden_dim : Z) (activation : string)
    (dropout_rate : spec_float) : M tensor :=
  let attention_name := name +:+ "-MultiHeadSelfAttention" in
  let feed_forward_name := name +:+ "-FeedForward" in
  attention_layer ←
    _wrap_layer attention_name (Single input_layer)
      (_attention_builder attention_name head_num activation false)
      dropout_rate;
  feed_forward_layer ←
    _wrap_layer feed_forward_name (Single attention_layer)
      (_feed_forward_builder feed_forward_name hidden_dim activation)
      dropout_rate;
  mret feed_forward_layer.

Definition _get_decoder_component (name : string)
    (input_layer encoded_layer : tensor) (head_num hidden_dim : Z)
    (activation : string) (dropout_rate : spec_float) : M tensor :=
  let self_attention_name := name +:+ "-MultiHeadSelfAttention" in
  let query_attention_name := name +:+ "-MultiHeadQueryAttention" in
  let feed_forward_name := name +:+ "-FeedForward" in
  self_attention_layer ←
    _wrap_layer self_attention_name (Single input_layer)
      (_attention_builder self_attention_name head_num activation true)
      dropout_rate;
  query_attention_layer ←
    _wrap_layer query_attention_name
      (Multi [self_attention_layer; encoded_layer; encoded_layer])
      (_attention_builder query_attention_name head_num activation false)
      dropout_rate;
  feed_forward_layer ←
    _wrap_layer feed_forward_name (Single query_attention_layer)
      (_feed_forward_builder feed_forward_name hidden_dim activation)
      dropout_rate;
  mret feed_forward_layer.

Definition get_encoders (encoder_num : Z) (input_layer : tensor)
    (head_num hidden_dim : Z) (activation : string)
    (dropout_rate : spec_float) : M tensor :=
  for_loop (range encoder_num)
    (fun last_layer i =>
       _get_encoder_component ("Encoder-" +:+ pretty (i + 1)%Z) last_layer
         head_num hidden_dim activation dropout_rate)
    input_layer.

Definition get_decoders (decoder_num : Z) (input_layer encoded_layer : tensor)
    (head_num hidden_dim : Z) (activation : string)
    (dropout_rate : spec_float) : M tensor :=
  for_loop (range decoder_num)
    (fun last_layer i =>
       _get_decoder_component ("Decoder-" +:+ pretty (i + 1)%Z) last_layer
         encoded_layer head_num hidden_dim activation dropout_rate)
    input_layer.

Definition get_model (token_num embed_dim encoder_num decoder_num
    head_num hidden_dim : Z) (activation : string)
    (dropout_rate : spec_float) (embed_weights : option weights_arg)
    (embed_trainable : option bool) : M model :=
  let embed_weights :=
    match embed_weights with
    | Some (WArray a) => Some (WList [a])
    | Some (WList ws) => Some (WList ws)
    | None => None
    end in
  let embed_trainable :=
    match embed_trainable with
    | None => is_None embed_weights
    | Some b => b
    end in
  embed_layer ← new_layer
    (Layer "Token-Embedding"
       (Embedding token_num embed_dim embed_weights embed_trainable));
  encoder_input ← Input "Encoder-Input";
  pos_e ← new_layer (Layer "Encoder-Embedding" (TrigPosEmbedding MODE_ADD));
  encoder_tokens ← call_layer embed_layer (Single encoder_input);
  encoder_embed ← call_layer pos_e (Single encoder_tokens);
  encoded_layer ←
    get_encoders encoder_num encoder_embed head_num hidden_dim activation
      dropout_rate;
  decoder_input ← Input "Decoder-Input";
  pos_d ← new_layer (Layer "Decoder-Embedding" (TrigPosEmbedding MODE_ADD));
  decoder_tokens ← call_layer embed_layer (Single decoder_input);
  decoder_embed ← call_layer pos_d (Single decoder_tokens);
  decoded_layer ←
    get_decoders decoder_num decoder_embed encoded_layer head_num hidden_dim
      activation dropout_rate;
  out ← new_layer (Layer "Output" (Dense token_num "softmax"));
  dense_layer ← call_layer out (Single decoded_layer);
  mret (Model [encoder_input; decoder_input] dense_layer).

(** ** Reading a graph *)

(** The graph [g] with the layers [L] and the nodes [N] appended. *)
Definition extend (g : graph) (L : list layer) (N : list node) : graph :=
  Graph (layers g ++ L) (nodes g ++ N).

(** The layer that produced tensor [t] and what it was called on. *)
Definition producer (g : graph) (t : tensor) : option (layer * call_arg) :=
  nd ← nodes g !! t;
  l ← layers g !! node_layer nd;
  Some (l, node_inputs nd).

(** The residual source of [_wrap_layer]: the input, or the first element
    of a list input. *)
Definition skip_source (x : call_arg) : option tensor :=
  match x with
  | Single t => Some t
  | Multi ts => head ts
  end.

(** [dropout_rate > 0.0] and [dropout_rate == 0]. *)
Definition rate_pos (r : spec_float) : bool := SFltb (S754_zero false) r.
Definition rate_zero (r : spec_float) : bool := SFeqb r (S754_zero false).

Definition is_attention (l : layer) : bool :=
  match layer_kind l with
  | MultiHeadAttention _ _ _ => true
  | _ => false
  end.

(** The transform of a stage: an attention or a feed-forward layer. *)
Definition is_transform (l : layer) : bool :=
  match layer_kind l with
  | MultiHeadAttention _ _ _ | FeedForward _ _ => true
  | _ => false
  end.

Definition is_embedding (l : layer) : bool :=
  match layer_kind l with
  | Embedding _ _ _ _ => true
  | _ => false
  end.

Definition is_dropout (l : layer) : bool :=
  match layer_kind l with
  | Dropout _ => true
  | _ => false
  end.

(** ** What each function appends to the graph *)

(** Layers and nodes that [_wrap_layer] adds after its transform has run:
    [a] layers and [b] nodes exist at that point, [raw] is the transform's
    output and [skip] the residual source. *)
Definition residual_layers (name : string) (rate : spec_float) : list layer :=
  if rate_pos rate then
    [Layer (name +:+ "-Norm") LayerNormalization;
     Layer (name +:+ "-Dropout") (Dropout rate);
     Layer (name +:+ "-Add") Add]
  else
    [Layer (name +:+ "-Norm") LayerNormalization;
     Layer (name +:+ "-Add") Add].

Definition residual_nodes (a b : nat) (raw skip : tensor)
    (rate : spec_float) : list node :=
  if rate_pos rate then
    [Node a (Single raw); Node (a + 1) (Single b);
     Node (a + 2) (Multi [skip; b + 1])]%nat
  else
    [Node a (Single raw); Node (a + 1) (Multi [skip; b])]%nat.

(** Offset of the output of a wrapped stage from its first node. *)
Definition stage_last (rate : spec_float) : nat :=
  if rate_pos rate then 3%nat else 2%nat.

(** A stage: one transform layer wrapped by [_wrap_layer]. *)
Definition stage_layers (name : string) (kind : layer_config)
    (rate : spec_float) : list layer :=
  Layer name kind :: residual_layers name rate.

Definition stage_nodes (a b : nat) (input : call_arg) (skip : tensor)
    (rate : spec_float) : list node :=
  Node a input :: residual_nodes (a + 1) (b + 1) b skip rate.

Definition encoder_layers (name : string) (head_num hidden_dim : Z)
    (activation : string) (rate : spec_float) : list layer :=
  stage_layers (name +:+ "-MultiHeadSelfAttention")
    (MultiHeadAttention head_num activation false) rate ++
  stage_layers (name +:+ "-FeedForward")
    (FeedForward hidden_dim activation) rate.

Definition encoder_nodes (a b : nat) (x : tensor) (rate : spec_float)
    : list node :=
  let w := S (stage_last rate) in
  let y := (b + stage_last rate)%nat in
  stage_nodes a b (Single x) x rate ++
  stage_nodes (a + w) (b + w) (Single y) y rate.

Definition decoder_layers (name : string) (head_num hidden_dim : Z)
    (activation : string) (rate : spec_float) : list layer :=
  stage_layers (name +:+ "-MultiHeadSelfAttention")
    (MultiHeadAttention head_num activation true) rate ++
  stage_layers (name +:+ "-MultiHeadQueryAttention")
    (MultiHeadAttention head_num activation false) rate ++
  stage_layers (name +:+ "-FeedForward")
    (FeedForward hidden_dim activation) rate.

Definition decoder_nodes (a b : nat) (x enc : tensor) (rate : spec_float)
    : list node :=
  let w := S (stage_last rate) in
  let y := (b + stage_last rate)%nat in
  let z := (b + w + stage_last rate)%nat in
  stage_nodes a b (Single x) x rate ++
  stage_nodes (a + w) (b + w) (Multi [y; enc; enc]) y rate ++
  stage_nodes (a + w + w) (b + w + w) (Single z) z rate.

(** Offset of a block's output from its first node. *)
Definition encoder_last (rate : spec_float) : nat :=
  (S (stage_last rate) + stage_last rate)%nat.

Definition decoder_last (rate : spec_float) : nat :=
  (S (stage_last rate) + S (stage_last rate) + stage_last rate)%nat.

(** A stack of [n] blocks of [S last] layers and nodes each, the first one
    starting at layer [a] and node [b] with input [x]. *)
Fixpoint stack_nodes (block : nat -> nat -> tensor -> list node) (last : nat)
    (n : nat) (a b : nat) (x : tensor) : list node :=
  match n with
  | O => []
  | S n' =>
      block a b x ++
      stack_nodes block last n' (a + S last) (b + S last) (b + last)
  end%nat.

Definition stack_out (last : nat) (n : nat) (b : nat) (x : tensor) : tensor :=
  match n with
  | O => x
  | S n' => (b + n' * S last + last)%nat
  end.

Definition encoder_stack_layers (encoder_num head_num hidden_dim : Z)
    (activation : string) (rate : spec_float) : list layer :=
  i ← range encoder_num;
  encoder_layers ("Encoder-" +:+ pretty (i + 1)%Z) head_num hidden_dim
    activation rate.

Definition decoder_stack_layers (decoder_num head_num hidden_dim : Z)
    (activation : string) (rate : spec_float) : list layer :=
  i ← range decoder_num;
  decoder_layers ("Decoder-" +:+ pretty (i + 1)%Z) head_num hidden_dim
    activation rate.

(** The embedding layer [get_model] creates. *)
Definition token_embedding (token_num embed_dim : Z)
    (embed_weights : option weights_arg) (embed_trainable : option bool)
    : layer :=
  Layer "Token-Embedding"
    (Embedding token_num embed_dim
       (match embed_weights with
        | Some (WArray a) => Some (WList [a])
        | other => other
        end)
       (match embed_trainable with
        | Some b => b
        | None => is_None embed_weights
        end)).

(** Everything [get_model] appends, in creation order. *)
Definition model_layers (token_num embed_dim encoder_num decoder_num
    head_num hidden_dim : Z) (activation : string) (rate : spec_float)
    (embed_weights : option weights_arg) (embed_trainable : option bool)
    : list layer :=
  [token_embedding token_num embed_dim embed_weights embed_trainable;
   Layer "Encoder-Input" InputLayer;
   Layer "Encoder-Embedding" (TrigPosEmbedding MODE_ADD)] ++
  encoder_stack_layers encoder_num head_num hidden_dim activation rate ++
  [Layer "Decoder-Input" InputLayer;
   Layer "Decoder-Embedding" (TrigPosEmbedding MODE_ADD)] ++
  decoder_stack_layers decoder_num head_num hidden_dim activation rate ++
  [Layer "Output" (Dense token_num "softmax")].

(** Node positions inside the part [get_model] appends, relative to its
    first node. *)
Definition encoder_embed_pos : nat := 2.
Definition decoder_input_pos (encoder_num : Z) (rate : spec_float) : nat :=
  (3 + Z.to_nat encoder_num * S (encoder_last rate))%nat.
Definition decoder_embed_pos (encoder_num : Z) (rate : spec_float) : nat :=
  (decoder_input_pos encoder_num rate + 2)%nat.
Definition output_pos (encoder_num decoder_num : Z) (rate : spec_float)
    : nat :=
  (decoder_input_pos encoder_num rate + 3 +
   Z.to_nat decoder_num * S (decoder_last rate))%nat.

Definition encoded_pos (b : nat) (encoder_num : Z) (rate : spec_float)
    : tensor :=
  stack_out (encoder_last rate) (Z.to_nat encoder_num) (b + 3)
    (b + encoder_embed_pos).
Definition decoded_pos (b : nat) (encoder_num decoder_num : Z)
    (rate : spec_float) : tensor :=
  stack_out (decoder_last rate) (Z.to_nat decoder_num)
    (b + decoder_input_pos encoder_num rate + 3)
    (b + decoder_embed_pos encoder_num rate).

Definition model_nodes (encoder_num decoder_num : Z) (rate : spec_float)
    (a b : nat) : list node :=
  let a2 := (a + decoder_input_pos encoder_num rate)%nat in
  let b2 := (b + decoder_input_pos encoder_num rate)%nat in
  [Node (a + 1) (Multi []); Node a (Single b);
   Node (a + 2) (Single (b + 1))]%nat ++
  stack_nodes (fun a b x => encoder_nodes a b x rate) (encoder_last rate)
    (Z.to_nat encoder_num) (a + 3) (b + 3) (b + encoder_embed_pos) ++
  [Node a2 (Multi []); Node a (Single b2);
   Node (a2 + 1) (Single (b2 + 1))]%nat ++
  stack_nodes
    (fun a' b' x => decoder_nodes a' b' x (encoded_pos b encoder_num rate) rate)
    (decoder_last rate) (Z.to_nat decoder_num) (a2 + 2) (b2 + 3) (b2 + 2) ++
  [Node (a + output_pos encoder_num decoder_num rate - 1)
     (Single (decoded_pos b encoder_num decoder_num rate))]%nat.

(** ** Comparing the results of two calls *)

(** Two calls of [get_model] start from different graphs, so the indices
    they hand out differ by the sizes of those graphs.  [created g g'] is
    the part of [g'] added to [g], with every reference taken relative to
    the start of that part. *)
Definition shift_arg (db : nat) (x : call_arg) : call_arg :=
  match x with
  | Single t => Single (db + t)
  | Multi ts => Multi ((λ t, db + t)%nat <$> ts)
  end.

Definition shift_node (da db : nat) (nd : node) : node :=
  Node (da + node_layer nd) (shift_arg db (node_inputs nd)).

Definition unshift_arg (db : nat) (x : call_arg) : call_arg :=
  match x with
  | Single t => Single (t - db)
  | Multi ts => Multi ((λ t, t - db)%nat <$> ts)
  end.

Definition unshift_node (da db : nat) (nd : node) : node :=
  Node (node_layer nd - da) (unshift_arg db (node_inputs nd)).

Definition created (g g' : graph) : graph :=
  Graph (drop (length (layers g)) (layers g'))
        (unshift_node (length (layers g)) (length (nodes g)) <$>
           drop (length (nodes g)) (nodes g')).

Definition rebase_model (g : graph) (m : model) : model :=
  Model ((λ t, t - length (nodes g))%nat <$> inputs m)
        (outputs m - length (nodes g)).

(** ** Well-formed graphs *)

(** The tensors a call reads. *)
Definition arg_tensors (x : call_arg) : list tensor :=
  match x with
  | Single t => [t]
  | Multi ts => ts
  end.

(** Every node calls a layer that exists and reads only tensors created
    before it: the graph has no dangling and no forward reference, so it
    is acyclic. *)
Definition wf_graph (g : graph) : Prop :=
  forall i nd, nodes g !! i = Some nd ->
    node_layer nd < length (layers g) /\
    Forall (fun t => t < i) (arg_tensors (node_inputs nd)).

(** The same condition on a batch of layers [L] and nodes [N] appended
    after [a] layers and [b] nodes. *)
Definition wf_chunk (a b : nat) (L : list layer) (N : list node) : Prop :=
  forall i nd, N !! i = Some nd ->
    node_layer nd < a + length L /\
    Forall (fun t => t < b + i) (arg_tensors (node_inputs nd)).

(** A call on a list of exactly three tensors: query, key, value. *)
Definition is_triple (nd : node) : bool :=
  match node_inputs nd with
  | Multi [_; _; _] => true
  | _ => false
  end.

(** ** Layer names *)

Definition is_digit (c : ascii) : bool :=
  match c with
  | "0" | "1" | "2" | "3" | "4" | "5" | "6" | "7" | "8" | "9" => true
  | _ => false
  end%char.

Fixpoint all_digits (s : string) : bool :=
  match s with
  | EmptyString => true
  | String c r => is_digit c && all_digits r
  end.

(** What [_wrap_layer] appends to a block name for a stage whose
    transform is named by the suffix [k]. *)
Definition stage_suffixes (k : string) (rate : spec_float) : list string :=
  if rate_pos rate then [k; k +:+ "-Norm"; k +:+ "-Dropout"; k +:+ "-Add"]
  else [k; k +:+ "-Norm"; k +:+ "-Add"].

Definition encoder_suffixes (rate : spec_float) : list string :=
  stage_suffixes "-MultiHeadSelfAttention" rate ++
  stage_suffixes "-FeedForward" rate.

Definition decoder_suffixes (rate : spec_float) : list string :=
  stage_suffixes "-MultiHeadSelfAttention" rate ++
  stage_suffixes "-MultiHeadQueryAttention" rate ++
  stage_suffixes "-FeedForward" rate.

(** ** Basic facts *)

Lemma extend_extend g L1 N1 L2 N2 :
  extend (extend g L1 N1) L2 N2 = extend g (L1 ++ L2) (N1 ++ N2).
Proof. unfold extend; simpl. by rewrite <- !app_assoc. Qed.

Lemma extend_nil g : extend g [] [] = g.
Proof. destruct g; unfold extend; simpl. by rewrite !app_nil_r. Qed.

Lemma rate_zero_not_pos r : rate_zero r = true -> rate_pos r = false.
Proof. by destruct r as [[]|[]| |[] ? ?]. Qed.

Lemma stage_layers_length name kind rate :
  length (stage_layers name kind rate) = S (stage_last rate).
Proof.
  unfold stage_layers, residual_layers, stage_last.
  by destruct (rate_pos rate).
Qed.

Lemma stage_nodes_length a b input skip rate :
  length (stage_nodes a b input skip rate) = S (stage_last rate).
Proof.
  unfold stage_nodes, residual_nodes, stage_last.
  by destruct (rate_pos rate).
Qed.

(** Running a bind whose first part is known. *)
Lemma bind_run {A B} (m : M A) (f : A -> M B) g x g' :
  m g = Some (x, g') -> (m ≫= f) g = f x g'.
Proof. unfold mbind, M_bind. by intros ->. Qed.

(** [_wrap_layer] once its transform has returned. *)
Lemma wrap_layer_run name input build rate g raw g1 skip :
  build input g = Some (raw, g1) ->
  skip_source input = Some skip ->
  _wrap_layer name input build rate g =
    Some ((length (nodes g1) + if rate_pos rate then 2 else 1)%nat,
          extend g1 (residual_layers name rate)
            (residual_nodes (length (layers g1)) (length (nodes g1))
               raw skip rate)).
Proof.
  intros Hb Hs. unfold _wrap_layer.
  rewrite (bind_run _ _ _ _ _ Hb).
  assert (Hin : forall h, match input with
                          | Multi ts => index0 ts
                          | Single t => mret t
                          end h = Some (skip, h)).
  { intros h. destruct input as [t|[|t ts]]; simpl in Hs; by simplify_eq. }
  unfold residual_layers, residual_nodes, rate_pos, extend.
  destruct (SFltb (S754_zero false) rate);
    unfold mbind, M_bind, new_layer, call_layer in *; simpl;
    rewrite Hin; simpl; rewrite ?length_app; simpl;
    rewrite <- ?app_assoc; simpl; repeat (f_equal; try lia).
Qed.

Lemma layers_extend g L N : layers (extend g L N) = layers g ++ L.
Proof. done. Qed.

Lemma nodes_extend g L N : nodes (extend g L N) = nodes g ++ N.
Proof. done. Qed.

Lemma new_layer_run l g :
  new_layer l g = Some (length (layers g), extend g [l] []).
Proof. unfold new_layer, extend. by rewrite app_nil_r. Qed.

Lemma call_layer_run r x g :
  call_layer r x g = Some (length (nodes g), extend g [] [Node r x]).
Proof. unfold call_layer, extend. by rewrite app_nil_r. Qed.

Lemma Input_run name g :
  Input name g =
    Some (length (nodes g),
          extend g [Layer name InputLayer]
            [Node (length (layers g)) (Multi [])]).
Proof. unfold Input, extend. by destruct g. Qed.

Lemma attention_builder_run name head_num activation history_only x g :
  _attention_builder name head_num activation history_only x g =
    Some (length (nodes g),
          extend g [Layer name (MultiHeadAttention head_num activation
                                  history_only)]
            [Node (length (layers g)) x]).
Proof. unfold _attention_builder, extend. by destruct g. Qed.

Lemma feed_forward_builder_run name hidden_dim activation x g :
  _feed_forward_builder name hidden_dim activation x g =
    Some (length (nodes g),
          extend g [Layer name (FeedForward hidden_dim activation)]
            [Node (length (layers g)) x]).
Proof. unfold _feed_forward_builder, extend. by destruct g. Qed.

(** A wrapped stage whose transform creates one layer and calls it once. *)
Lemma stage_run name kind input skip rate build g :
  (forall h, build input h =
     Some (length (nodes h),
           extend h [Layer name kind] [Node (length (layers h)) input])) ->
  skip_source input = Some skip ->
  _wrap_layer name input build rate g =
    Some (length (nodes g) + stage_last rate,
          extend g (stage_layers name kind rate)
            (stage_nodes (length (layers g)) (length (nodes g)) input skip
               rate)).
Proof.
  intros Hb Hs. rewrite (wrap_layer_run _ _ _ _ _ _ _ _ (Hb g) Hs).
  rewrite extend_extend, layers_extend, nodes_extend, !length_app. simpl.
  unfold stage_last, stage_layers, stage_nodes.
  destruct (rate_pos rate); repeat (f_equal; try lia).
Qed.

Lemma encoder_component_run name x head_num hidden_dim activation rate g :
  _get_encoder_component name x head_num hidden_dim activation rate g =
    Some (length (nodes g) + encoder_last rate,
          extend g (encoder_layers name head_num hidden_dim activation rate)
            (encoder_nodes (length (layers g)) (length (nodes g)) x rate)).
Proof.
  unfold _get_encoder_component.
  erewrite bind_run
    by (eapply stage_run; [apply attention_builder_run | done]).
  erewrite bind_run
    by (eapply stage_run; [apply feed_forward_builder_run | done]).
  rewrite extend_extend, layers_extend, nodes_extend, !length_app.
  rewrite stage_layers_length, stage_nodes_length.
  unfold encoder_layers, encoder_nodes, encoder_last.
  unfold mret, M_ret. repeat (f_equal; try lia).
Qed.

Lemma decoder_component_run name x enc head_num hidden_dim activation rate g :
  _get_decoder_component name x enc head_num hidden_dim activation rate g =
    Some (length (nodes g) + decoder_last rate,
          extend g (decoder_layers name head_num hidden_dim activation rate)
            (decoder_nodes (length (layers g)) (length (nodes g)) x enc
               rate)).
Proof.
  unfold _get_decoder_component.
  erewrite bind_run
    by (eapply stage_run; [apply attention_builder_run | done]).
  erewrite bind_run
    by (eapply stage_run; [apply attention_builder_run | done]).
  erewrite bind_run
    by (eapply stage_run; [apply feed_forward_builder_run | done]).
  rewrite !extend_extend, !layers_extend, !nodes_extend, !length_app.
  rewrite !stage_layers_length, !stage_nodes_length.
  unfold decoder_layers, decoder_nodes, decoder_last.
  unfold mret, M_ret. rewrite <- !app_assoc. repeat (f_equal; try lia).
Qed.

(** The loop of a stack builder, for any block that appends [S last]
    layers and nodes and returns its last node. *)
Section Stack.
Context (body : tensor -> Z -> M tensor).
Context (block_layers : Z -> list layer).
Context (block_nodes : nat -> nat -> tensor -> list node).
Context (last : nat).

Hypothesis body_run : forall x i g,
  body x i g =
    Some (length (nodes g) + last,
          extend g (block_layers i)
            (block_nodes (length (layers g)) (length (nodes g)) x)).
Hypothesis block_layers_length : forall i,
  length (block_layers i) = S last.
Hypothesis block_nodes_length : forall a b x,
  length (block_nodes a b x) = S last.

Lemma stack_layers_length (idx : list Z) :
  length (i ← idx; block_layers i) = length idx * S last.
Proof.
  induction idx as [|i idx IH]; [done|].
  cbn [mbind list_bind]. rewrite length_app, block_layers_length, IH.
  simpl. lia.
Qed.

Lemma stack_nodes_length n a b x :
  length (stack_nodes block_nodes last n a b x) = n * S last.
Proof.
  revert a b x. induction n as [|n IH]; intros a b x; [done|].
  cbn [stack_nodes]. rewrite length_app, block_nodes_length, IH.
  simpl. lia.
Qed.

Lemma for_loop_run (idx : list Z) x g :
  for_loop idx body x g =
    Some (stack_out last (length idx) (length (nodes g)) x,
          extend g (i ← idx; block_layers i)
            (stack_nodes block_nodes last (length idx)
               (length (layers g)) (length (nodes g)) x)).
Proof.
  revert x g. induction idx as [|i idx IH]; intros x g.
  - simpl. by rewrite extend_nil.
  - cbn [for_loop]. rewrite (bind_run _ _ _ _ _ (body_run x i g)).
    rewrite IH, extend_extend, layers_extend, nodes_extend, !length_app.
    rewrite block_layers_length, block_nodes_length.
    cbn [length stack_nodes mbind list_bind]. f_equal. f_equal.
    destruct idx; simpl; lia.
Qed.
End Stack.

Lemma range_length n : length (range n) = Z.to_nat n.
Proof. unfold range. by rewrite length_fmap, length_seq. Qed.

Lemma range_snoc n : (0 <= n)%Z -> range (n + 1) = range n ++ [n].
Proof.
  intros Hn. unfold range.
  replace (Z.to_nat (n + 1)) with (Z.to_nat n + 1) by lia.
  rewrite seq_app, fmap_app. simpl. f_equal. f_equal. lia.
Qed.

Lemma encoder_layers_length name head_num hidden_dim activation rate :
  length (encoder_layers name head_num hidden_dim activation rate) =
  S (encoder_last rate).
Proof.
  unfold encoder_layers, encoder_last.
  rewrite length_app, !stage_layers_length. lia.
Qed.

Lemma encoder_nodes_length a b x rate :
  length (encoder_nodes a b x rate) = S (encoder_last rate).
Proof.
  unfold encoder_nodes, encoder_last.
  rewrite length_app, !stage_nodes_length. lia.
Qed.

Lemma decoder_layers_length name head_num hidden_dim activation rate :
  length (decoder_layers name head_num hidden_dim activation rate) =
  S (decoder_last rate).
Proof.
  unfold decoder_layers, decoder_last.
  rewrite !length_app, !stage_layers_length. lia.
Qed.

Lemma decoder_nodes_length a b x enc rate :
  length (decoder_nodes a b x enc rate) = S (decoder_last rate).
Proof.
  unfold decoder_nodes, decoder_last.
  rewrite !length_app, !stage_nodes_length. lia.
Qed.

Lemma get_encoders_run encoder_num x head_num hidden_dim activation rate g :
  get_encoders encoder_num x head_num hidden_dim activation rate g =
    Some (stack_out (encoder_last rate) (Z.to_nat encoder_num)
            (length (nodes g)) x,
          extend g
            (encoder_stack_layers encoder_num head_num hidden_dim activation
               rate)
            (stack_nodes (fun a b x => encoder_nodes a b x rate)
               (encoder_last rate) (Z.to_nat encoder_num)
               (length (layers g)) (length (nodes g)) x)).
Proof.
  unfold get_encoders, encoder_stack_layers.
  erewrite for_loop_run with
    (block_layers := fun i => encoder_layers _ _ _ _ _)
    (block_nodes := fun a b x => encoder_nodes a b x rate).
  - by rewrite range_length.
  - intros. apply encoder_component_run.
  - intros. apply encoder_layers_length.
  - intros. apply encoder_nodes_length.
Qed.

Lemma get_decoders_run decoder_num x enc head_num hidden_dim activation rate g :
  get_decoders decoder_num x enc head_num hidden_dim activation rate g =
    Some (stack_out (decoder_last rate) (Z.to_nat decoder_num)
            (length (nodes g)) x,
          extend g
            (decoder_stack_layers decoder_num head_num hidden_dim activation
               rate)
            (stack_nodes (fun a b x => decoder_nodes a b x enc rate)
               (decoder_last rate) (Z.to_nat decoder_num)
               (length (layers g)) (length (nodes g)) x)).
Proof.
  unfold get_decoders, decoder_stack_layers.
  erewrite for_loop_run with
    (block_layers := fun i => decoder_layers _ _ _ _ _)
    (block_nodes := fun a b x => decoder_nodes a b x enc rate).
  - by rewrite range_length.
  - intros. apply decoder_component_run.
  - intros. apply decoder_layers_length.
  - intros. apply decoder_nodes_length.
Qed.

Lemma encoder_stack_layers_length encoder_num head_num hidden_dim activation
    rate :
  length (encoder_stack_layers encoder_num head_num hidden_dim activation
            rate) = Z.to_nat encoder_num * S (encoder_last rate).
Proof.
  unfold encoder_stack_layers.
  rewrite stack_layers_length with (last := encoder_last rate).
  - by rewrite range_length.
  - intros. apply encoder_layers_length.
Qed.

Lemma decoder_stack_layers_length decoder_num head_num hidden_dim activation
    rate :
  length (decoder_stack_layers decoder_num head_num hidden_dim activation
            rate) = Z.to_nat decoder_num * S (decoder_last rate).
Proof.
  unfold decoder_stack_layers.
  rewrite stack_layers_length with (last := decoder_last rate).
  - by rewrite range_length.
  - intros. apply decoder_layers_length.
Qed.

Lemma encoder_stack_nodes_length rate n a b x :
  length (stack_nodes (fun a b x => encoder_nodes a b x rate)
            (encoder_last rate) n a b x) = n * S (encoder_last rate).
Proof. apply stack_nodes_length. intros. apply encoder_nodes_length. Qed.

Lemma decoder_stack_nodes_length enc rate n a b x :
  length (stack_nodes (fun a b x => decoder_nodes a b x enc rate)
            (decoder_last rate) n a b x) = n * S (decoder_last rate).
Proof. apply stack_nodes_length. intros. apply decoder_nodes_length. Qed.

(** The whole of [get_model]: it never raises, and what it appends depends
    on the graph it starts from only through the two sizes. *)
Lemma get_model_run token_num embed_dim encoder_num decoder_num head_num
    hidden_dim activation rate embed_weights embed_trainable g :
  get_model token_num embed_dim encoder_num decoder_num head_num hidden_dim
    activation rate embed_weights embed_trainable g =
    Some (Model [length (nodes g);
                 length (nodes g) + decoder_input_pos encoder_num rate]
                (length (nodes g) +
                 output_pos encoder_num decoder_num rate),
          extend g
            (model_layers token_num embed_dim encoder_num decoder_num
               head_num hidden_dim activation rate embed_weights
               embed_trainable)
            (model_nodes encoder_num decoder_num rate (length (layers g))
               (length (nodes g)))).
Proof.
  unfold get_model. cbv zeta.
  set (e := Layer "Token-Embedding" _).
  assert (He : e = token_embedding token_num embed_dim embed_weights
                     embed_trainable).
  { unfold e, token_embedding.
    by destruct embed_weights as [[]|], embed_trainable. }
  clearbody e. subst e.
  repeat
    (erewrite bind_run
       by first [ apply Input_run | apply get_encoders_run
                | apply get_decoders_run | apply new_layer_run
                | apply call_layer_run ];
     rewrite ?extend_extend, ?layers_extend, ?nodes_extend, ?length_app,
       ?encoder_stack_layers_length, ?decoder_stack_layers_length,
       ?encoder_stack_nodes_length, ?decoder_stack_nodes_length;
     cbn [length app]).
  unfold mret, M_ret, model_layers, model_nodes, encoded_pos, decoded_pos,
    output_pos, decoder_embed_pos, decoder_input_pos, encoder_embed_pos.
  rewrite <- ?app_assoc, ?app_nil_r. cbn [app].
  repeat (f_equal;
          try (rewrite ?length_app; cbn [length];
               rewrite ?encoder_stack_nodes_length,
                 ?decoder_stack_nodes_length; lia)).
Qed.

(** ** Looking up what was appended *)

Lemma producer_new g L N i r x j l :
  N !! i = Some (Node r x) ->
  r = length (layers g) + j ->
  L !! j = Some l ->
  producer (extend g L N) (length (nodes g) + i) = Some (l, x).
Proof.
  intros HN -> HL. unfold producer, extend. cbn [nodes layers].
  rewrite lookup_app_r by lia.
  replace (length (nodes g) + i - length (nodes g)) with i by lia.
  rewrite HN. cbn. rewrite lookup_app_r by lia.
  replace (length (layers g) + j - length (layers g)) with j by lia.
  by rewrite HL.
Qed.

Lemma drop_extend_layers g L N :
  drop (length (layers g)) (layers (extend g L N)) = L.
Proof. rewrite layers_extend. by rewrite drop_app_length. Qed.

Lemma drop_extend_nodes g L N :
  drop (length (nodes g)) (nodes (extend g L N)) = N.
Proof. rewrite nodes_extend. by rewrite drop_app_length. Qed.

Lemma for_loop_snoc {A B} (xs : list A) (y : A) (body : B -> A -> M B) acc g :
  for_loop (xs ++ [y]) body acc g =
  (for_loop xs body acc ≫= fun acc' => body acc' y) g.
Proof.
  revert acc g. induction xs as [|x xs IH]; intros acc g; simpl.
  - unfold mbind, M_bind, mret, M_ret. by destruct (body acc y g) as [[]|].
  - unfold mbind, M_bind in *. destruct (body acc x g) as [[acc' g']|]; [|done].
    apply IH.
Qed.

Lemma stack_nodes_snoc block last n a b x :
  stack_nodes block last (S n) a b x =
  stack_nodes block last n a b x ++
  block (a + n * S last) (b + n * S last) (stack_out last n b x).
Proof.
  revert a b x. induction n as [|n IH]; intros a b x.
  - simpl. rewrite app_nil_r. f_equal; lia.
  - change (stack_nodes block last (S (S n)) a b x) with
      (block a b x ++
       stack_nodes block last (S n) (a + S last) (b + S last) (b + last)).
    rewrite IH. cbn [stack_nodes]. rewrite <- app_assoc. do 2 f_equal.
    f_equal; [lia | lia |]. destruct n; simpl; lia.
Qed.

Lemma filter_bind {A B} (p : B -> bool) (f : A -> list B) (xs : list A) :
  List.filter p (x ← xs; f x) = (x ← xs; List.filter p (f x)).
Proof.
  induction xs as [|x xs IH]; [done|].
  cbn [mbind list_bind]. by rewrite List.filter_app, IH.
Qed.

Lemma list_bind_ext {A B} (f h : A -> list B) (xs : list A) :
  (forall x, f x = h x) -> (x ← xs; f x) = (x ← xs; h x).
Proof.
  intros Hfh. induction xs as [|x xs IH]; [done|].
  cbn [mbind list_bind]. by rewrite Hfh, IH.
Qed.

Lemma filter_stage_layers p name kind rate :
  p (Layer (name +:+ "-Norm") LayerNormalization) = false ->
  p (Layer (name +:+ "-Dropout") (Dropout rate)) = false ->
  p (Layer (name +:+ "-Add") Add) = false ->
  List.filter p (stage_layers name kind rate) =
  List.filter p [Layer name kind].
Proof.
  intros H1 H2 H3. unfold stage_layers, residual_layers.
  destruct (rate_pos rate); simpl; by rewrite ?H1, ?H2, ?H3.
Qed.

(** ** The residual wrapper *)

(** C2.  Whenever the transform returns [raw] and the input has a residual
    source [skip] (the input itself, or the first element of a list
    input), [_wrap_layer] returns the output of an [Add] layer called on
    exactly two tensors, [skip] and [final].  The transform's output goes
    through a normalization layer; when [dropout_rate] is zero [final] is
    that normalized tensor and no [Dropout] layer is created, and when
    [dropout_rate > 0] [final] is the output of a [Dropout] layer called
    on the normalized tensor. *)
Theorem wrap_layer_residual name input build_func dropout_rate g raw g1 skip :
  build_func input g = Some (raw, g1) ->
  skip_source input = Some skip ->
  exists out g' normed final,
    _wrap_layer name input build_func dropout_rate g = Some (out, g') /\
    producer g' normed =
      Some (Layer (name +:+ "-Norm") LayerNormalization, Single raw) /\
    producer g' out =
      Some (Layer (name +:+ "-Add") Add, Multi [skip; final]) /\
    (rate_zero dropout_rate = true ->
       final = normed /\
       List.filter is_dropout (drop (length (layers g1)) (layers g')) = []) /\
    (rate_pos dropout_rate = true ->
       producer g' final =
         Some (Layer (name +:+ "-Dropout") (Dropout dropout_rate),
               Single normed)).
Proof.
  intros Hb Hs.
  pose proof (wrap_layer_run name _ _ dropout_rate _ _ _ _ Hb Hs) as Hrun.
  assert (Hnorm : forall L N l,
            N !! 0 = Some (Node (length (layers g1)) (Single raw)) ->
            L !! 0 = Some l ->
            producer (extend g1 L N) (length (nodes g1)) =
              Some (l, Single raw)).
  { intros L N l HN HL. rewrite <- (Nat.add_0_r (length (nodes g1))).
    eapply producer_new with (j := 0); [done|lia|done]. }
  eexists _, _, (length (nodes g1)),
    (if rate_pos dropout_rate then length (nodes g1) + 1
     else length (nodes g1)).
  split; [exact Hrun|].
  unfold residual_layers, residual_nodes.
  destruct (rate_pos dropout_rate) eqn:Hpos.
  - split; [by apply Hnorm|].
    split; [eapply producer_new with (i := 2) (j := 2); done|].
    split.
    + intros Hz. apply rate_zero_not_pos in Hz. congruence.
    + intros _. eapply producer_new with (i := 1) (j := 1); done.
  - split; [by apply Hnorm|].
    split; [eapply producer_new with (i := 1) (j := 1); done|].
    split; [|done].
    intros _. split; [done|]. by rewrite drop_extend_layers.
Qed.

(** The list case needs its first element: on the empty list [xs[0]]
    raises, after the transform and the normalization have run. *)
Lemma wrap_layer_empty_list_raises name build_func dropout_rate g raw g1 :
  build_func (Multi []) g = Some (raw, g1) ->
  _wrap_layer name (Multi []) build_func dropout_rate g = None.
Proof.
  intros Hb. unfold _wrap_layer. rewrite (bind_run _ _ _ _ _ Hb).
  unfold mbind, M_bind, new_layer, call_layer. simpl.
  by destruct (SFltb (S754_zero false) dropout_rate).
Qed.

(** Witness for C2: a cross-attention stage without dropout, built on a
    graph that already holds the three tensors it is called on. *)
Lemma wrap_layer_residual_witness :
  exists out g' normed final,
    _wrap_layer "Q" (Multi [2; 1; 1])
      (_attention_builder "Q" 4 "relu" false) (S754_zero false)
      (Graph [Layer "In" InputLayer]
             [Node 0 (Multi []); Node 0 (Multi []); Node 0 (Multi [])]) =
      Some (out, g') /\
    producer g' normed = Some (Layer "Q-Norm" LayerNormalization, Single 3) /\
    producer g' out = Some (Layer "Q-Add" Add, Multi [2; final]) /\
    final = normed.
Proof.
  destruct (wrap_layer_residual "Q" (Multi [2; 1; 1])
              (_attention_builder "Q" 4 "relu" false) (S754_zero false)
              (Graph [Layer "In" InputLayer]
                 [Node 0 (Multi []); Node 0 (Multi []); Node 0 (Multi [])])
              3 _ 2 eq_refl eq_refl)
    as (out & g' & normed & final & Hrun & Hnorm & Hadd & Hzero & _).
  exists out, g', normed, final.
  repeat split; [exact Hrun | exact Hnorm | exact Hadd |].
  apply Hzero. reflexivity.
Defined.

(** ** Decoder blocks *)

(** C1.  In the graph a decoder block returns, the masked self-attention
    layer ([history_only=True]) is called on the block's input alone; its
    output is normalized, goes through a [Dropout] layer when
    [dropout_rate > 0], and is added to the block's input by the layer
    [<name>-MultiHeadSelfAttention-Add], whose output is [self_out] (it is
    also what the wrapped self-attention stage returns on its own).  The
    cross-attention layer (full attention, [history_only=False]) is called
    on the list [[self_out; encoded_layer; encoded_layer]], and the
    residual [Add] of the cross-attention stage starts from [self_out]
    too.  Since [self_out] is a node the block creates, it differs from
    the block's input, which existed before. *)
Theorem decoder_cross_attention_wiring name input_layer encoded_layer
    head_num hidden_dim activation dropout_rate g :
  input_layer < length (nodes g) ->
  exists out g' g1 self_attention normed dropped self_out cross cross_out
         final,
    _get_decoder_component name input_layer encoded_layer head_num hidden_dim
      activation dropout_rate g = Some (out, g') /\
    _wrap_layer (name +:+ "-MultiHeadSelfAttention") (Single input_layer)
      (_attention_builder (name +:+ "-MultiHeadSelfAttention") head_num
         activation true)
      dropout_rate g = Some (self_out, g1) /\
    producer g' self_attention =
      Some (Layer (name +:+ "-MultiHeadSelfAttention")
              (MultiHeadAttention head_num activation true),
            Single input_layer) /\
    producer g' normed =
      Some (Layer ((name +:+ "-MultiHeadSelfAttention") +:+ "-Norm")
              LayerNormalization,
            Single self_attention) /\
    (if rate_pos dropout_rate then
       producer g' dropped =
         Some (Layer ((name +:+ "-MultiHeadSelfAttention") +:+ "-Dropout")
                 (Dropout dropout_rate),
               Single normed)
     else dropped = normed) /\
    producer g' self_out =
      Some (Layer ((name +:+ "-MultiHeadSelfAttention") +:+ "-Add") Add,
            Multi [input_layer; dropped]) /\
    producer g' cross =
      Some (Layer (name +:+ "-MultiHeadQueryAttention")
              (MultiHeadAttention head_num activation false),
            Multi [self_out; encoded_layer; encoded_layer]) /\
    producer g' cross_out =
      Some (Layer ((name +:+ "-MultiHeadQueryAttention") +:+ "-Add") Add,
            Multi [self_out; final]) /\
    self_out <> input_layer.
Proof.
  intros Hlt.
  set (sl := stage_last dropout_rate).
  eexists _, _, _, (length (nodes g) + 0), (length (nodes g) + 1),
    (length (nodes g) + Nat.pred sl), (length (nodes g) + sl),
    (length (nodes g) + S sl), (length (nodes g) + (S sl + sl)),
    (length (nodes g) + (S sl + Nat.pred sl)).
  split; [apply decoder_component_run|].
  split; [eapply stage_run; [apply attention_builder_run | done]|].
  assert (Hnew : forall L N i r x j l,
            L !! j = Some l -> r = length (layers g) + j ->
            N !! i = Some (Node r x) ->
            producer (extend g L N) (length (nodes g) + i) = Some (l, x))
    by (intros; by eapply producer_new).
  unfold sl, decoder_layers, decoder_nodes, stage_layers, stage_nodes,
    residual_layers, residual_nodes, stage_last.
  destruct (rate_pos dropout_rate); cbn [app Nat.pred Nat.add].
  - split; [eapply producer_new with (j := 0); [done|lia|done]|].
    split.
    { eapply Hnew with (j := 1); [done|reflexivity|].
      simpl. repeat (f_equal; try lia). }
    split.
    { eapply Hnew with (j := 2); [done|reflexivity|].
      simpl. repeat (f_equal; try lia). }
    split.
    { eapply Hnew with (j := 3); [done|reflexivity|].
      simpl. repeat (f_equal; try lia). }
    split.
    { eapply Hnew with (j := 4); [done|reflexivity|].
      simpl. repeat (f_equal; try lia). }
    split; [|lia].
    eapply Hnew with (j := 7); [done|reflexivity|].
    simpl. repeat (f_equal; try lia).
  - split; [eapply producer_new with (j := 0); [done|lia|done]|].
    split.
    { eapply Hnew with (j := 1); [done|reflexivity|].
      simpl. repeat (f_equal; try lia). }
    split; [reflexivity|].
    split.
    { eapply Hnew with (j := 2); [done|reflexivity|].
      simpl. repeat (f_equal; try lia). }
    split.
    { eapply Hnew with (j := 3); [done|reflexivity|].
      simpl. repeat (f_equal; try lia). }
    split; [|lia].
    eapply Hnew with (j := 5); [done|reflexivity|].
    simpl. repeat (f_equal; try lia).
Qed.

(** Witness for C1: the first decoder block of a model, on a graph that
    holds the decoder input (tensor 1) and the encoder output (tensor 0). *)
Lemma decoder_cross_attention_wiring_witness :
  exists out g' g1 self_attention normed dropped self_out cross cross_out
         final,
    _get_decoder_component "Decoder-1" 1 0 4 32 "relu" (S754_zero false)
      (Graph [Layer "In" InputLayer] [Node 0 (Multi []); Node 0 (Multi [])])
      = Some (out, g') /\
    _wrap_layer "Decoder-1-MultiHeadSelfAttention" (Single 1)
      (_attention_builder "Decoder-1-MultiHeadSelfAttention" 4 "relu" true)
      (S754_zero false)
      (Graph [Layer "In" InputLayer] [Node 0 (Multi []); Node 0 (Multi [])])
      = Some (self_out, g1) /\
    producer g' self_attention =
      Some (Layer "Decoder-1-MultiHeadSelfAttention"
              (MultiHeadAttention 4 "relu" true), Single 1) /\
    producer g' normed =
      Some (Layer "Decoder-1-MultiHeadSelfAttention-Norm" LayerNormalization,
            Single self_attention) /\
    dropped = normed /\
    producer g' self_out =
      Some (Layer "Decoder-1-MultiHeadSelfAttention-Add" Add,
            Multi [1; dropped]) /\
    producer g' cross =
      Some (Layer "Decoder-1-MultiHeadQueryAttention"
              (MultiHeadAttention 4 "relu" false),
            Multi [self_out; 0; 0]) /\
    producer g' cross_out =
      Some (Layer "Decoder-1-MultiHeadQueryAttention-Add" Add,
            Multi [self_out; final]) /\
    self_out <> 1.
Proof.
  apply (decoder_cross_attention_wiring "Decoder-1" 1 0 4 32 "relu"
           (S754_zero false)
           (Graph [Layer "In" InputLayer]
              [Node 0 (Multi []); Node 0 (Multi [])])).
  simpl. lia.
Defined.

(** ** Stacks *)

(** C9.  With depth 0 both stack builders return their input tensor and
    leave the graph as it was: no layer and no node is created. *)
Theorem stack_depth_zero_identity input_layer encoded_layer head_num
    hidden_dim activation dropout_rate g :
  get_encoders 0 input_layer head_num hidden_dim activation dropout_rate g =
    Some (input_layer, g) /\
  get_decoders 0 input_layer encoded_layer head_num hidden_dim activation
    dropout_rate g = Some (input_layer, g).
Proof. split; reflexivity. Qed.

Lemma encoder_transforms name head_num hidden_dim activation rate :
  List.filter is_transform
    (encoder_layers name head_num hidden_dim activation rate) =
  [Layer (name +:+ "-MultiHeadSelfAttention")
     (MultiHeadAttention head_num activation false);
   Layer (name +:+ "-FeedForward") (FeedForward hidden_dim activation)].
Proof.
  unfold encoder_layers.
  by rewrite List.filter_app, !filter_stage_layers.
Qed.

Lemma decoder_transforms name head_num hidden_dim activation rate :
  List.filter is_transform
    (decoder_layers name head_num hidden_dim activation rate) =
  [Layer (name +:+ "-MultiHeadSelfAttention")
     (MultiHeadAttention head_num activation true);
   Layer (name +:+ "-MultiHeadQueryAttention")
     (MultiHeadAttention head_num activation false);
   Layer (name +:+ "-FeedForward") (FeedForward hidden_dim activation)].
Proof.
  unfold decoder_layers.
  by rewrite !List.filter_app, !filter_stage_layers.
Qed.

(** C5.  For a depth [N >= 0], a stack of depth [N + 1] is the stack of
    depth [N] followed by one more block, named with the 1-based index
    [N + 1] and called on what the first [N] blocks returned; its result
    is that last block's result.  The stack of depth [N] always returns,
    and the transform layers it creates are, in order, those of blocks
    [Encoder-1] ... [Encoder-N] (resp. [Decoder-1] ... [Decoder-N]), each
    named by the block name followed by the stage kind. *)
Theorem stack_threads_blocks (N : Z) input_layer encoded_layer head_num
    hidden_dim activation dropout_rate g :
  (0 <= N)%Z ->
  get_encoders (N + 1) input_layer head_num hidden_dim activation
    dropout_rate g =
    (get_encoders N input_layer head_num hidden_dim activation dropout_rate
     ≫= fun last_layer =>
          _get_encoder_component ("Encoder-" +:+ pretty (N + 1)%Z) last_layer
            head_num hidden_dim activation dropout_rate) g /\
  get_decoders (N + 1) input_layer encoded_layer head_num hidden_dim
    activation dropout_rate g =
    (get_decoders N input_layer encoded_layer head_num hidden_dim activation
       dropout_rate
     ≫= fun last_layer =>
          _get_decoder_component ("Decoder-" +:+ pretty (N + 1)%Z) last_layer
            encoded_layer head_num hidden_dim activation dropout_rate) g /\
  (exists out g',
     get_encoders N input_layer head_num hidden_dim activation dropout_rate g
       = Some (out, g') /\
     List.filter is_transform (drop (length (layers g)) (layers g')) =
       (i ← range N;
        [Layer (("Encoder-" +:+ pretty (i + 1)%Z) +:+ "-MultiHeadSelfAttention")
           (MultiHeadAttention head_num activation false);
         Layer (("Encoder-" +:+ pretty (i + 1)%Z) +:+ "-FeedForward")
           (FeedForward hidden_dim activation)])) /\
  (exists out g',
     get_decoders N input_layer encoded_layer head_num hidden_dim activation
       dropout_rate g = Some (out, g') /\
     List.filter is_transform (drop (length (layers g)) (layers g')) =
       (i ← range N;
        [Layer (("Decoder-" +:+ pretty (i + 1)%Z) +:+ "-MultiHeadSelfAttention")
           (MultiHeadAttention head_num activation true);
         Layer (("Decoder-" +:+ pretty (i + 1)%Z) +:+ "-MultiHeadQueryAttention")
           (MultiHeadAttention head_num activation false);
         Layer (("Decoder-" +:+ pretty (i + 1)%Z) +:+ "-FeedForward")
           (FeedForward hidden_dim activation)])) /\
  length (range N) = Z.to_nat N /\
  "Encoder-" +:+ pretty (2 + 1)%Z +:+ "-MultiHeadSelfAttention" =
    "Encoder-3-MultiHeadSelfAttention".
Proof.
  intros HN. repeat split.
  - unfold get_encoders. rewrite range_snoc by done. apply for_loop_snoc.
  - unfold get_decoders. rewrite range_snoc by done. apply for_loop_snoc.
  - eexists _, _. split; [apply get_encoders_run|].
    rewrite drop_extend_layers. unfold encoder_stack_layers.
    rewrite filter_bind. apply list_bind_ext. intros i.
    apply encoder_transforms.
  - eexists _, _. split; [apply get_decoders_run|].
    rewrite drop_extend_layers. unfold decoder_stack_layers.
    rewrite filter_bind. apply list_bind_ext. intros i.
    apply decoder_transforms.
  - apply range_length.
Qed.

(** Witness for C5: depth 2 on a graph holding one input tensor. *)
Lemma stack_threads_blocks_witness :
  exists out g',
    get_encoders 2 0 4 32 "relu" (S754_zero false)
      (Graph [Layer "In" InputLayer] [Node 0 (Multi [])]) = Some (out, g') /\
    List.filter is_transform (drop 1 (layers g')) =
      [Layer "Encoder-1-MultiHeadSelfAttention"
         (MultiHeadAttention 4 "relu" false);
       Layer "Encoder-1-FeedForward" (FeedForward 32 "relu");
       Layer "Encoder-2-MultiHeadSelfAttention"
         (MultiHeadAttention 4 "relu" false);
       Layer "Encoder-2-FeedForward" (FeedForward 32 "relu")].
Proof.
  destruct (stack_threads_blocks 2 0 0 4 32 "relu" (S754_zero false)
              (Graph [Layer "In" InputLayer] [Node 0 (Multi [])]))
    as (_ & _ & Henc & _).
  - lia.
  - exact Henc.
Defined.

(** ** The assembled model *)

Lemma lookup_app3 {A} (P E M R : list A) i :
  i < length M -> (P ++ E ++ M ++ R) !! (length P + length E + i) = M !! i.
Proof.
  intros Hi. rewrite lookup_app_r by lia. rewrite lookup_app_r by lia.
  rewrite lookup_app_l by lia. f_equal. lia.
Qed.

Lemma lookup_app5 {A} (P E M D T : list A) i :
  (P ++ E ++ M ++ D ++ T) !! (length P + length E + length M + length D + i)
  = T !! i.
Proof.
  do 4 (rewrite lookup_app_r by lia). f_equal. lia.
Qed.

Lemma lookup_app4 {A} (P E M D T : list A) i :
  i < length D ->
  (P ++ E ++ M ++ D ++ T) !! (length P + length E + length M + i) = D !! i.
Proof.
  intros Hi. do 3 (rewrite lookup_app_r by lia).
  rewrite lookup_app_l by lia. f_equal. lia.
Qed.

Lemma range_pos n : (0 < n)%Z -> range n = 0%Z :: drop 1 (range n).
Proof.
  intros Hn. unfold range.
  by destruct (Z.to_nat n) as [|k] eqn:Hk; [lia|].
Qed.

Lemma range_last n : (0 < n)%Z -> range n = range (n - 1) ++ [(n - 1)%Z].
Proof.
  intros Hn. rewrite <- range_snoc by lia. f_equal. lia.
Qed.

Lemma stack_nodes_first block last n a b x nd :
  0 < n -> block a b x !! 0 = Some nd ->
  stack_nodes block last n a b x !! 0 = Some nd.
Proof.
  intros Hn Hnd. destruct n as [|n]; [lia|]. cbn [stack_nodes].
  by apply lookup_app_l_Some.
Qed.

Lemma stack_nodes_last block last n a b x :
  (forall a b x, length (block a b x) = S last) ->
  stack_nodes block last (S n) a b x !! (n * S last + last) =
  block (a + n * S last) (b + n * S last) (stack_out last n b x) !! last.
Proof.
  intros Hlen. rewrite stack_nodes_snoc.
  rewrite lookup_app_r by (rewrite stack_nodes_length by done; lia).
  rewrite stack_nodes_length by done. f_equal. lia.
Qed.

Lemma decoder_nodes_last a b x enc rate :
  exists ins,
    decoder_nodes a b x enc rate !! decoder_last rate =
      Some (Node (a + decoder_last rate) ins).
Proof.
  unfold decoder_nodes, decoder_last, stage_nodes, residual_nodes, stage_last.
  destruct (rate_pos rate); eexists; simpl; repeat (f_equal; try lia).
Qed.

Lemma decoder_layers_last name head_num hidden_dim activation rate :
  decoder_layers name head_num hidden_dim activation rate
    !! decoder_last rate =
  Some (Layer ((name +:+ "-FeedForward") +:+ "-Add") Add).
Proof.
  unfold decoder_layers, decoder_last, stage_layers, residual_layers,
    stage_last.
  by destruct (rate_pos rate).
Qed.

Section Assembled.
Context (token_num embed_dim encoder_num decoder_num head_num
         hidden_dim : Z).
Context (activation : string) (rate : spec_float).
Context (embed_weights : option weights_arg).
Context (embed_trainable : option bool).

Let L := model_layers token_num embed_dim encoder_num decoder_num head_num
           hidden_dim activation rate embed_weights embed_trainable.
Let dip := decoder_input_pos encoder_num rate.
Let op := output_pos encoder_num decoder_num rate.

Lemma model_layers_front :
  L !! 0 = Some (token_embedding token_num embed_dim embed_weights
                   embed_trainable) /\
  L !! 1 = Some (Layer "Encoder-Input" InputLayer) /\
  L !! 2 = Some (Layer "Encoder-Embedding" (TrigPosEmbedding MODE_ADD)).
Proof. done. Qed.

Lemma model_layers_middle :
  L !! dip = Some (Layer "Decoder-Input" InputLayer) /\
  L !! (dip + 1) =
    Some (Layer "Decoder-Embedding" (TrigPosEmbedding MODE_ADD)).
Proof.
  unfold L, dip, model_layers, decoder_input_pos.
  rewrite <- (encoder_stack_layers_length encoder_num head_num hidden_dim
                activation rate).
  set (E := encoder_stack_layers _ _ _ _ _).
  split.
  - change (3 + length E) with (S (S (S (length E)))). cbn [app lookup list_lookup].
    by rewrite (lookup_app_r E) by lia; rewrite Nat.sub_diag.
  - change (3 + length E + 1) with (S (S (S (length E + 1)))).
    cbn [app lookup list_lookup].
    rewrite (lookup_app_r E) by lia.
    by replace (length E + 1 - length E) with 1 by lia.
Qed.

Lemma model_layers_output :
  L !! (op - 1) = Some (Layer "Output" (Dense token_num "softmax")).
Proof.
  unfold L, op, model_layers, output_pos, decoder_input_pos.
  rewrite <- (encoder_stack_layers_length encoder_num head_num hidden_dim
                activation rate).
  rewrite <- (decoder_stack_layers_length decoder_num head_num hidden_dim
                activation rate).
  set (E := encoder_stack_layers _ _ _ _ _).
  set (D := decoder_stack_layers _ _ _ _ _).
  replace (3 + length E + 3 + length D - 1)
    with (S (S (S (length E + (2 + length D))))) by lia.
  cbn [app lookup list_lookup].
  rewrite (lookup_app_r E) by lia.
  replace (length E + (2 + length D) - length E)
    with (S (S (length D))) by lia.
  cbn [app lookup list_lookup].
  by rewrite (lookup_app_r D) by lia; rewrite Nat.sub_diag.
Qed.
Lemma model_nodes_front a b :
  model_nodes encoder_num decoder_num rate a b !! 0 =
    Some (Node (a + 1) (Multi [])) /\
  model_nodes encoder_num decoder_num rate a b !! 1 =
    Some (Node a (Single b)) /\
  model_nodes encoder_num decoder_num rate a b !! 2 =
    Some (Node (a + 2) (Single (b + 1))).
Proof. done. Qed.

Lemma model_nodes_middle a b :
  model_nodes encoder_num decoder_num rate a b !! dip =
    Some (Node (a + dip) (Multi [])) /\
  model_nodes encoder_num decoder_num rate a b !! (dip + 1) =
    Some (Node a (Single (b + dip))) /\
  model_nodes encoder_num decoder_num rate a b !! (dip + 2) =
    Some (Node (a + dip + 1) (Single (b + dip + 1))).
Proof.
  unfold model_nodes. cbv zeta. fold dip.
  set (P := [Node (a + 1) _; _; _]).
  set (E := stack_nodes _ (encoder_last rate) _ _ _ _).
  assert (HE : length E = Z.to_nat encoder_num * S (encoder_last rate))
    by apply encoder_stack_nodes_length.
  assert (Hdip : forall i, dip + i = length P + length E + i).
  { intros i. unfold dip, decoder_input_pos. rewrite HE. simpl. lia. }
  rewrite <- (Nat.add_0_r dip) at 1.
  rewrite !Hdip. by rewrite !lookup_app3 by (simpl; lia).
Qed.

Lemma model_nodes_output a b :
  model_nodes encoder_num decoder_num rate a b !! op =
    Some (Node (a + op - 1)
            (Single (decoded_pos b encoder_num decoder_num rate))).
Proof.
  unfold model_nodes. cbv zeta. fold dip. fold op.
  set (P := [Node (a + 1) _; _; _]).
  set (E := stack_nodes _ (encoder_last rate) _ _ _ _).
  set (Mid := [Node (a + dip) _; _; _]).
  set (D := stack_nodes _ (decoder_last rate) _ _ _ _).
  assert (HE : length E = Z.to_nat encoder_num * S (encoder_last rate))
    by apply encoder_stack_nodes_length.
  assert (HD : length D = Z.to_nat decoder_num * S (decoder_last rate))
    by apply decoder_stack_nodes_length.
  replace op with (length P + length E + length Mid + length D + 0) at 1.
  - by rewrite lookup_app5.
  - unfold op, output_pos, decoder_input_pos. rewrite HE, HD. simpl. lia.
Qed.
Lemma model_first_encoder a b :
  (0 < encoder_num)%Z ->
  L !! 3 = Some (Layer "Encoder-1-MultiHeadSelfAttention"
                   (MultiHeadAttention head_num activation false)) /\
  model_nodes encoder_num decoder_num rate a b !! 3 =
    Some (Node (a + 3) (Single (b + 2))).
Proof.
  intros Hn. split.
  - unfold L, model_layers, encoder_stack_layers.
    rewrite (range_pos _ Hn). done.
  - unfold model_nodes. cbv zeta. cbn [app lookup list_lookup].
    apply lookup_app_l_Some, stack_nodes_first; [lia|done].
Qed.

Lemma model_first_decoder a b :
  (0 < decoder_num)%Z ->
  L !! (dip + 2) =
    Some (Layer "Decoder-1-MultiHeadSelfAttention"
            (MultiHeadAttention head_num activation true)) /\
  model_nodes encoder_num decoder_num rate a b !! (dip + 3) =
    Some (Node (a + dip + 2) (Single (b + dip + 2))).
Proof.
  intros Hn. split.
  - unfold L, model_layers.
    set (P := [token_embedding _ _ _ _; _; _]).
    set (E := encoder_stack_layers _ _ _ _ _).
    set (Mid := [Layer "Decoder-Input" _; _]).
    replace (dip + 2) with (length P + length E + length Mid + 0).
    + rewrite lookup_app4.
      * unfold decoder_stack_layers. by rewrite (range_pos _ Hn).
      * unfold decoder_stack_layers.
        rewrite (range_pos _ Hn). cbn. lia.
    + unfold E, dip, decoder_input_pos.
      rewrite encoder_stack_layers_length. simpl. lia.
  - unfold model_nodes. cbv zeta. fold dip.
    set (P := [Node (a + 1) _; _; _]).
    set (E := stack_nodes _ (encoder_last rate) _ _ _ _).
    set (Mid := [Node (a + dip) _; _; _]).
    set (D := stack_nodes _ (decoder_last rate) _ _ _ _).
    assert (HE : length E = Z.to_nat encoder_num * S (encoder_last rate))
      by apply encoder_stack_nodes_length.
    assert (HD : length D = Z.to_nat decoder_num * S (decoder_last rate))
      by apply decoder_stack_nodes_length.
    replace (dip + 3) with (length P + length E + length Mid + 0)
      by (unfold dip, decoder_input_pos; rewrite HE; simpl; lia).
    rewrite lookup_app4 by (rewrite HD; lia).
    apply stack_nodes_first; [lia|done].
Qed.

Lemma decoded_pos_empty b :
  (decoder_num <= 0)%Z ->
  decoded_pos b encoder_num decoder_num rate = b + dip + 2.
Proof.
  intros Hn. unfold decoded_pos, decoder_embed_pos.
  replace (Z.to_nat decoder_num) with 0 by lia.
  cbn [stack_out]. unfold dip. lia.
Qed.

Lemma decoded_pos_last b :
  (0 < decoder_num)%Z ->
  decoded_pos b encoder_num decoder_num rate = b + (op - 1).
Proof.
  intros Hn. unfold decoded_pos, op, output_pos, stack_out.
  destruct (Z.to_nat decoder_num) as [|k] eqn:Hk; lia.
Qed.

Lemma model_last_decoder a b :
  (0 < decoder_num)%Z ->
  L !! (op - 2) =
    Some (Layer ((("Decoder-" +:+ pretty decoder_num) +:+ "-FeedForward")
                 +:+ "-Add") Add) /\
  exists ins,
    model_nodes encoder_num decoder_num rate a b !! (op - 1) =
      Some (Node (a + (op - 2)) ins).
Proof.
  intros Hn.
  destruct (Z.to_nat decoder_num) as [|k] eqn:Hk; [lia|].
  split.
  - unfold L, model_layers.
    set (P := [token_embedding _ _ _ _; _; _]).
    set (E := encoder_stack_layers _ _ _ _ _).
    set (Mid := [Layer "Decoder-Input" _; _]).
    set (D := decoder_stack_layers _ _ _ _ _).
    assert (HE : length E = Z.to_nat encoder_num * S (encoder_last rate))
      by apply encoder_stack_layers_length.
    assert (HD : length D = Z.to_nat decoder_num * S (decoder_last rate))
      by apply decoder_stack_layers_length.
    replace (op - 2) with
      (length P + length E + length Mid +
       (k * S (decoder_last rate) + decoder_last rate))
      by (unfold op, output_pos, decoder_input_pos, P, Mid;
          rewrite HE, Hk; cbn [length]; lia).
    rewrite lookup_app4 by (rewrite HD, Hk; lia).
    unfold D, decoder_stack_layers. rewrite (range_last _ Hn).
    rewrite bind_app. cbn [mbind list_bind app].
    rewrite app_nil_r, lookup_app_r.
    + set (F := _ ≫= _).
      assert (HF : length F = k * S (decoder_last rate)).
      { unfold F.
        rewrite stack_layers_length with (last := decoder_last rate).
        - rewrite range_length. f_equal. lia.
        - intros. apply decoder_layers_length. }
      rewrite HF.
      replace (k * S (decoder_last rate) + decoder_last rate -
               k * S (decoder_last rate)) with (decoder_last rate) by lia.
      rewrite decoder_layers_last. do 6 f_equal. lia.
    + rewrite stack_layers_length with (last := decoder_last rate).
      * rewrite range_length. nia.
      * intros. apply decoder_layers_length.
  - unfold model_nodes. cbv zeta. fold dip. fold op.
    set (P := [Node (a + 1) _; _; _]).
    set (E := stack_nodes _ (encoder_last rate) _ _ _ _).
    set (Mid := [Node (a + dip) _; _; _]).
    set (D := stack_nodes _ (decoder_last rate) _ _ _ _).
    assert (HE : length E = Z.to_nat encoder_num * S (encoder_last rate))
      by apply encoder_stack_nodes_length.
    assert (HD : length D = Z.to_nat decoder_num * S (decoder_last rate))
      by apply decoder_stack_nodes_length.
    replace (op - 1) with
      (length P + length E + length Mid +
       (k * S (decoder_last rate) + decoder_last rate))
      by (unfold op, output_pos, decoder_input_pos, P, Mid;
          rewrite HE, Hk; cbn [length]; lia).
    rewrite lookup_app4 by (rewrite HD, Hk; lia).
    unfold D. rewrite Hk.
    rewrite stack_nodes_last by (intros; apply decoder_nodes_length).
    match goal with
    | |- context [decoder_nodes ?a' ?b' ?x' ?e' rate] =>
        destruct (decoder_nodes_last a' b' x' e' rate) as [ins Hins]
    end.
    exists ins. rewrite Hins. do 2 f_equal.
    unfold op, output_pos, dip, decoder_input_pos. rewrite Hk. lia.
Qed.
End Assembled.

(** ** Which layers the model holds *)

Lemma list_bind_nil {A B} (xs : list A) : (x ← xs; @nil B) = [].
Proof. by induction xs. Qed.

Lemma model_embedding_layers token_num embed_dim encoder_num decoder_num
    head_num hidden_dim activation rate embed_weights embed_trainable :
  List.filter is_embedding
    (model_layers token_num embed_dim encoder_num decoder_num head_num
       hidden_dim activation rate embed_weights embed_trainable) =
  [token_embedding token_num embed_dim embed_weights embed_trainable].
Proof.
  unfold model_layers, encoder_stack_layers, decoder_stack_layers.
  rewrite !List.filter_app, !filter_bind.
  rewrite (list_bind_ext _ (fun _ => [])), list_bind_nil.
  - rewrite (list_bind_ext _ (fun _ => [])), list_bind_nil; [done|].
    intros i. unfold decoder_layers.
    by rewrite !List.filter_app, !filter_stage_layers.
  - intros i. unfold encoder_layers.
    by rewrite !List.filter_app, !filter_stage_layers.
Qed.

Lemma model_attention_layers token_num embed_dim encoder_num decoder_num
    head_num hidden_dim activation rate embed_weights embed_trainable :
  List.filter is_attention
    (model_layers token_num embed_dim encoder_num decoder_num head_num
       hidden_dim activation rate embed_weights embed_trainable) =
  (i ← range encoder_num;
   [Layer (("Encoder-" +:+ pretty (i + 1)%Z) +:+ "-MultiHeadSelfAttention")
      (MultiHeadAttention head_num activation false)]) ++
  (i ← range decoder_num;
   [Layer (("Decoder-" +:+ pretty (i + 1)%Z) +:+ "-MultiHeadSelfAttention")
      (MultiHeadAttention head_num activation true);
    Layer (("Decoder-" +:+ pretty (i + 1)%Z) +:+ "-MultiHeadQueryAttention")
      (MultiHeadAttention head_num activation false)]).
Proof.
  unfold model_layers, encoder_stack_layers, decoder_stack_layers.
  rewrite !List.filter_app, !filter_bind. cbn [List.filter is_attention
    layer_kind token_embedding app].
  rewrite app_nil_r. f_equal.
  - apply list_bind_ext. intros i. unfold encoder_layers.
    by rewrite !List.filter_app, !filter_stage_layers.
  - apply list_bind_ext. intros i. unfold decoder_layers.
    by rewrite !List.filter_app, !filter_stage_layers.
Qed.

(** ** Moving a construction to another starting graph *)

Lemma stage_nodes_shift da db a b input skip rate :
  stage_nodes (da + a) (db + b) (shift_arg db input) (db + skip) rate =
  shift_node da db <$> stage_nodes a b input skip rate.
Proof.
  unfold stage_nodes, residual_nodes, shift_node.
  destruct (rate_pos rate); cbn; repeat (f_equal; try lia).
Qed.

Lemma encoder_nodes_shift da db a b x rate :
  encoder_nodes (da + a) (db + b) (db + x) rate =
  shift_node da db <$> encoder_nodes a b x rate.
Proof.
  unfold encoder_nodes. cbv zeta.
  rewrite fmap_app, <- !stage_nodes_shift. cbn [shift_arg].
  repeat (f_equal; try lia).
Qed.

Lemma decoder_nodes_shift da db a b x enc rate :
  decoder_nodes (da + a) (db + b) (db + x) (db + enc) rate =
  shift_node da db <$> decoder_nodes a b x enc rate.
Proof.
  unfold decoder_nodes. cbv zeta.
  rewrite !fmap_app, <- !stage_nodes_shift. cbn [shift_arg fmap list_fmap].
  repeat (f_equal; try lia).
Qed.

Lemma stack_nodes_shift block block' last da db n a b x :
  (forall a b x,
     block' (da + a) (db + b) (db + x) = shift_node da db <$> block a b x) ->
  stack_nodes block' last n (da + a) (db + b) (db + x) =
  shift_node da db <$> stack_nodes block last n a b x.
Proof.
  intros Hblock. revert a b x.
  induction n as [|n IH]; intros a b x; [done|].
  cbn [stack_nodes]. rewrite fmap_app, <- Hblock, <- IH.
  repeat (f_equal; try lia).
Qed.

Lemma unshift_shift_node da db nd :
  unshift_node da db (shift_node da db nd) = nd.
Proof.
  destruct nd as [r [t|ts]]; unfold unshift_node, shift_node; cbn.
  - f_equal; [lia|]. f_equal. lia.
  - f_equal; [lia|]. f_equal. rewrite <- list_fmap_compose.
    rewrite <- (list_fmap_id ts) at 2. apply list_fmap_ext.
    intros _ t _. simpl. lia.
Qed.

Lemma encoded_pos_shift b encoder_num rate :
  encoded_pos b encoder_num rate = b + encoded_pos 0 encoder_num rate.
Proof.
  unfold encoded_pos, stack_out. destruct (Z.to_nat encoder_num); lia.
Qed.

Lemma decoded_pos_shift b encoder_num decoder_num rate :
  decoded_pos b encoder_num decoder_num rate =
  b + decoded_pos 0 encoder_num decoder_num rate.
Proof.
  unfold decoded_pos, stack_out. destruct (Z.to_nat decoder_num); lia.
Qed.

Lemma model_nodes_shift encoder_num decoder_num rate a b :
  model_nodes encoder_num decoder_num rate a b =
  shift_node a b <$> model_nodes encoder_num decoder_num rate 0 0.
Proof.
  unfold model_nodes. cbv zeta. rewrite !fmap_app.
  rewrite (encoded_pos_shift b), (decoded_pos_shift b).
  rewrite <- (stack_nodes_shift _ (fun a b x => encoder_nodes a b x rate))
    by (intros; apply encoder_nodes_shift).
  rewrite <- (stack_nodes_shift _
                (fun a' b' x =>
                   decoder_nodes a' b' x
                     (b + encoded_pos 0 encoder_num rate) rate))
    by (intros; apply decoder_nodes_shift).
  unfold shift_node. cbn [fmap list_fmap shift_arg node_layer node_inputs].
  pose proof (eq_refl : output_pos encoder_num decoder_num rate =
    decoder_input_pos encoder_num rate + 3 +
    Z.to_nat decoder_num * S (decoder_last rate)) as Hop.
  repeat (f_equal; try lia).
Qed.

Lemma created_extend g L a b N :
  a = length (layers g) -> b = length (nodes g) ->
  created g (extend g L (shift_node a b <$> N)) = Graph L N.
Proof.
  intros -> ->. unfold created.
  rewrite drop_extend_layers, drop_extend_nodes. f_equal.
  rewrite <- list_fmap_compose. rewrite <- (list_fmap_id N) at 2.
  apply list_fmap_ext. intros _ nd _. apply unshift_shift_node.
Qed.

(** ** Properties of [get_model] *)

Section Model.
Context (token_num embed_dim encoder_num decoder_num head_num
         hidden_dim : Z).
Context (activation : string) (dropout_rate : spec_float).
Context (embed_weights : option weights_arg).
Context (embed_trainable : option bool).

(** C3.  The attention layers of the assembled model, in creation order,
    are one per encoder block, built with [history_only=False], followed
    by two per decoder block: the block's first, self-attention, layer
    built with [history_only=True] and its cross-attention layer built
    with [history_only=False]. *)
Theorem attention_masking g :
  exists m g',
    get_model token_num embed_dim encoder_num decoder_num head_num hidden_dim
      activation dropout_rate embed_weights embed_trainable g
      = Some (m, g') /\
    List.filter is_attention (drop (length (layers g)) (layers g')) =
      (i ← range encoder_num;
       [Layer (("Encoder-" +:+ pretty (i + 1)%Z) +:+ "-MultiHeadSelfAttention")
          (MultiHeadAttention head_num activation false)]) ++
      (i ← range decoder_num;
       [Layer (("Decoder-" +:+ pretty (i + 1)%Z) +:+ "-MultiHeadSelfAttention")
          (MultiHeadAttention head_num activation true);
        Layer (("Decoder-" +:+ pretty (i + 1)%Z) +:+ "-MultiHeadQueryAttention")
          (MultiHeadAttention head_num activation false)]).
Proof.
  eexists _, _. split; [apply get_model_run|].
  rewrite drop_extend_layers. apply model_attention_layers.
Qed.

(** C4.  The model holds exactly one embedding layer, and its trainable
    flag is the caller's [embed_trainable] when that is not [None];
    otherwise it is [True] when [embed_weights] is [None] and [False] when
    weights were supplied. *)
Theorem embedding_trainable_default g :
  exists m g' w,
    get_model token_num embed_dim encoder_num decoder_num head_num hidden_dim
      activation dropout_rate embed_weights embed_trainable g
      = Some (m, g') /\
    List.filter is_embedding (drop (length (layers g)) (layers g')) =
      [Layer "Token-Embedding"
         (Embedding token_num embed_dim w
            match embed_trainable, embed_weights with
            | Some b, _ => b
            | None, None => true
            | None, Some _ => false
            end)].
Proof.
  eexists _, _,
    (match embed_weights with
     | Some (WArray a) => Some (WList [a])
     | other => other
     end).
  split; [apply get_model_run|].
  rewrite drop_extend_layers, model_embedding_layers.
  unfold token_embedding.
  by destruct embed_trainable, embed_weights as [[]|].
Qed.

(** C10.  The weights handed to the embedding layer are [None] when the
    caller passed [None], the caller's list when a list was passed, and
    the singleton list of the caller's array when a bare array was
    passed; so they are never a bare array. *)
Theorem embedding_weights_listed g :
  exists m g' w t,
    get_model token_num embed_dim encoder_num decoder_num head_num hidden_dim
      activation dropout_rate embed_weights embed_trainable g
      = Some (m, g') /\
    List.filter is_embedding (drop (length (layers g)) (layers g')) =
      [Layer "Token-Embedding" (Embedding token_num embed_dim w t)] /\
    w = match embed_weights with
        | None => None
        | Some (WArray a) => Some (WList [a])
        | Some (WList ws) => Some (WList ws)
        end /\
    (w = None \/ exists ws, w = Some (WList ws)).
Proof.
  eexists _, _, _, _. split; [apply get_model_run|].
  rewrite drop_extend_layers, model_embedding_layers.
  unfold token_embedding. split; [reflexivity|].
  destruct embed_weights as [[a|ws]|]; (split; [done|]); eauto.
Qed.
(** C6.  The model holds exactly one embedding layer; that one layer
    object is called on the encoder input and on the decoder input; each of
    the two embedded tensors goes through a positional-encoding layer in
    additive mode; and the first block of each stack, when the stack is
    not empty, is called on the positionally encoded tensor. *)
Theorem shared_embedding_and_positions g :
  exists m g' emb encoder_input decoder_input encoder_tokens decoder_tokens
         encoder_embed decoder_embed w t,
    get_model token_num embed_dim encoder_num decoder_num head_num hidden_dim
      activation dropout_rate embed_weights embed_trainable g
      = Some (m, g') /\
    inputs m = [encoder_input; decoder_input] /\
    List.filter is_embedding (drop (length (layers g)) (layers g')) =
      [Layer "Token-Embedding" (Embedding token_num embed_dim w t)] /\
    layers g' !! emb =
      Some (Layer "Token-Embedding" (Embedding token_num embed_dim w t)) /\
    nodes g' !! encoder_tokens = Some (Node emb (Single encoder_input)) /\
    nodes g' !! decoder_tokens = Some (Node emb (Single decoder_input)) /\
    producer g' encoder_embed =
      Some (Layer "Encoder-Embedding" (TrigPosEmbedding MODE_ADD),
            Single encoder_tokens) /\
    producer g' decoder_embed =
      Some (Layer "Decoder-Embedding" (TrigPosEmbedding MODE_ADD),
            Single decoder_tokens) /\
    ((0 < encoder_num)%Z ->
       exists first,
         producer g' first =
           Some (Layer "Encoder-1-MultiHeadSelfAttention"
                   (MultiHeadAttention head_num activation false),
                 Single encoder_embed)) /\
    ((0 < decoder_num)%Z ->
       exists first,
         producer g' first =
           Some (Layer "Decoder-1-MultiHeadSelfAttention"
                   (MultiHeadAttention head_num activation true),
                 Single decoder_embed)).
Proof.
  set (dip := decoder_input_pos encoder_num dropout_rate).
  pose proof (model_layers_front token_num embed_dim encoder_num decoder_num
                head_num hidden_dim activation dropout_rate embed_weights
                embed_trainable) as (HL0 & HL1 & HL2).
  pose proof (model_layers_middle token_num embed_dim encoder_num decoder_num
                head_num hidden_dim activation dropout_rate embed_weights
                embed_trainable) as (HL3 & HL4).
  pose proof (model_nodes_front encoder_num decoder_num dropout_rate
                (length (layers g)) (length (nodes g))) as (HN0 & HN1 & HN2).
  pose proof (model_nodes_middle encoder_num decoder_num dropout_rate
                (length (layers g)) (length (nodes g))) as (HN3 & HN4 & HN5).
  fold dip in HL3, HL4, HN3, HN4, HN5.
  rewrite <- ?Nat.add_assoc in HN5.
  eexists _, _, (length (layers g)), _, _, (length (nodes g) + 1),
    (length (nodes g) + (dip + 1)), (length (nodes g) + 2),
    (length (nodes g) + (dip + 2)), _, _.
  split; [apply get_model_run|].
  split; [reflexivity|].
  split; [rewrite drop_extend_layers; apply model_embedding_layers|].
  split.
  { rewrite layers_extend, lookup_app_r by lia.
    rewrite Nat.sub_diag. exact HL0. }
  split.
  { rewrite nodes_extend, lookup_app_r by lia.
    replace (length (nodes g) + 1 - length (nodes g)) with 1 by lia.
    exact HN1. }
  split.
  { rewrite nodes_extend, lookup_app_r by lia.
    replace (length (nodes g) + (dip + 1) - length (nodes g))
      with (dip + 1) by lia.
    exact HN4. }
  split; [eapply producer_new; [exact HN2|reflexivity|exact HL2]|].
  split.
  { eapply producer_new; [exact HN5|reflexivity|exact HL4]. }
  split.
  - intros Hn. exists (length (nodes g) + 3).
    destruct (model_first_encoder token_num embed_dim encoder_num decoder_num
                head_num hidden_dim activation dropout_rate embed_weights
                embed_trainable (length (layers g)) (length (nodes g)) Hn)
      as (HL & HN).
    eapply producer_new; [exact HN|reflexivity|exact HL].
  - intros Hn. exists (length (nodes g) + (dip + 3)).
    destruct (model_first_decoder token_num embed_dim encoder_num decoder_num
                head_num hidden_dim activation dropout_rate embed_weights
                embed_trainable (length (layers g)) (length (nodes g)) Hn)
      as (HL & HN).
    fold dip in HL, HN.
    replace (length (nodes g) + dip + 2)
      with (length (nodes g) + (dip + 2)) in HN by lia.
    eapply producer_new; [exact HN| |exact HL]. lia.
Qed.
(** C7.  [get_model] always returns a model.  Its inputs are exactly two
    distinct tensors, the outputs of the input layers [Encoder-Input] and
    [Decoder-Input]; its single output is the output of a dense layer of
    [token_num] units with softmax activation, called on the tensor the
    decoder stack returned: the residual sum that ends block
    [Decoder-<decoder_num>] when the stack is not empty, and the decoder's
    positional embedding when it is. *)
Theorem model_inputs_and_output g :
  exists m g' encoder_input decoder_input decoded_layer,
    get_model token_num embed_dim encoder_num decoder_num head_num hidden_dim
      activation dropout_rate embed_weights embed_trainable g
      = Some (m, g') /\
    inputs m = [encoder_input; decoder_input] /\
    encoder_input <> decoder_input /\
    producer g' encoder_input =
      Some (Layer "Encoder-Input" InputLayer, Multi []) /\
    producer g' decoder_input =
      Some (Layer "Decoder-Input" InputLayer, Multi []) /\
    producer g' (outputs m) =
      Some (Layer "Output" (Dense token_num "softmax"),
            Single decoded_layer) /\
    ((0 < decoder_num)%Z ->
       exists ins,
         producer g' decoded_layer =
           Some (Layer ((("Decoder-" +:+ pretty decoder_num)
                         +:+ "-FeedForward") +:+ "-Add") Add, ins)) /\
    ((decoder_num <= 0)%Z ->
       exists ins,
         producer g' decoded_layer =
           Some (Layer "Decoder-Embedding" (TrigPosEmbedding MODE_ADD),
                 ins)).
Proof.
  set (dip := decoder_input_pos encoder_num dropout_rate).
  set (op := output_pos encoder_num decoder_num dropout_rate).
  assert (Hop : 6 <= op /\ dip + 3 <= op /\ 3 <= dip).
  { unfold op, output_pos, dip, decoder_input_pos. lia. }
  pose proof (model_layers_front token_num embed_dim encoder_num decoder_num
                head_num hidden_dim activation dropout_rate embed_weights
                embed_trainable) as (_ & HL1 & _).
  pose proof (model_layers_middle token_num embed_dim encoder_num decoder_num
                head_num hidden_dim activation dropout_rate embed_weights
                embed_trainable) as (HL3 & HL4).
  pose proof (model_layers_output token_num embed_dim encoder_num decoder_num
                head_num hidden_dim activation dropout_rate embed_weights
                embed_trainable) as HLo.
  pose proof (model_nodes_front encoder_num decoder_num dropout_rate
                (length (layers g)) (length (nodes g))) as (HN0 & _ & _).
  pose proof (model_nodes_middle encoder_num decoder_num dropout_rate
                (length (layers g)) (length (nodes g))) as (HN3 & _ & HN5).
  pose proof (model_nodes_output encoder_num decoder_num dropout_rate
                (length (layers g)) (length (nodes g))) as HNo.
  fold dip in HL3, HL4, HN3, HN5. fold op in HLo, HNo.
  eexists _, _, _, _, _.
  split; [apply get_model_run|].
  split; [reflexivity|].
  split; [fold dip; lia|].
  split.
  { rewrite <- (Nat.add_0_r (length (nodes g))) at 2.
    eapply producer_new; [exact HN0|reflexivity|exact HL1]. }
  split; [eapply producer_new; [exact HN3|reflexivity|exact HL3]|].
  split.
  { cbn [outputs]. eapply producer_new; [exact HNo| |exact HLo]. lia. }
  split.
  - intros Hn.
    destruct (model_last_decoder token_num embed_dim encoder_num decoder_num
                head_num hidden_dim activation dropout_rate embed_weights
                embed_trainable (length (layers g)) (length (nodes g)) Hn)
      as (HL & ins & HN).
    fold op in HL, HN. exists ins.
    rewrite decoded_pos_last by done. fold op.
    eapply producer_new; [exact HN|reflexivity|exact HL].
  - intros Hn. eexists.
    rewrite decoded_pos_empty by done. fold dip.
    rewrite <- Nat.add_assoc. rewrite <- ?Nat.add_assoc in HN5.
    eapply producer_new; [exact HN5|reflexivity|exact HL4].
Qed.

(** C8.  Two calls of [get_model] with the same arguments, from whatever
    graphs they start, both return, and the parts they create coincide:
    the same layers (names and kinds) in the same order, and the same
    nodes with the same layer and input references, counted from the
    start of each part; the two models name the same inputs and output. *)
Theorem get_model_deterministic g1 g2 :
  exists m1 g1' m2 g2',
    get_model token_num embed_dim encoder_num decoder_num head_num hidden_dim
      activation dropout_rate embed_weights embed_trainable g1
      = Some (m1, g1') /\
    get_model token_num embed_dim encoder_num decoder_num head_num hidden_dim
      activation dropout_rate embed_weights embed_trainable g2
      = Some (m2, g2') /\
    created g1 g1' = created g2 g2' /\
    rebase_model g1 m1 = rebase_model g2 m2.
Proof.
  eexists _, _, _, _.
  split; [apply get_model_run|]. split; [apply get_model_run|].
  split.
  - rewrite (model_nodes_shift _ _ _ (length (layers g1))).
    rewrite (model_nodes_shift _ _ _ (length (layers g2))).
    by rewrite !created_extend.
  - unfold rebase_model. cbn. repeat (f_equal; try lia).
Qed.
End Model.

(** Witness for C6: the configuration of the package's example, two
    encoder and two decoder blocks, assembled on the empty graph. *)
Lemma shared_embedding_and_positions_witness :
  exists m g' emb encoder_tokens decoder_tokens encoder_embed decoder_embed
         first_encoder first_decoder,
    get_model 1000 16 2 2 4 32 "relu" (S754_zero false) None None empty_graph
      = Some (m, g') /\
    layers g' !! emb =
      Some (Layer "Token-Embedding" (Embedding 1000 16 None true)) /\
    (exists t, nodes g' !! encoder_tokens = Some (Node emb (Single t))) /\
    (exists t, nodes g' !! decoder_tokens = Some (Node emb (Single t))) /\
    producer g' encoder_embed =
      Some (Layer "Encoder-Embedding" (TrigPosEmbedding MODE_ADD),
            Single encoder_tokens) /\
    producer g' decoder_embed =
      Some (Layer "Decoder-Embedding" (TrigPosEmbedding MODE_ADD),
            Single decoder_tokens) /\
    producer g' first_encoder =
      Some (Layer "Encoder-1-MultiHeadSelfAttention"
              (MultiHeadAttention 4 "relu" false), Single encoder_embed) /\
    producer g' first_decoder =
      Some (Layer "Decoder-1-MultiHeadSelfAttention"
              (MultiHeadAttention 4 "relu" true), Single decoder_embed).
Proof.
  destruct (shared_embedding_and_positions 1000 16 2 2 4 32 "relu"
              (S754_zero false) None None empty_graph)
    as (m & g' & emb & ei & di & et & dt & ee & de & w & t & Hrun & _ & Hone &
        Hemb & Het & Hdt & Hee & Hde & Henc & Hdec).
  destruct Henc as [fe Hfe]; [lia|].
  destruct Hdec as [fd Hfd]; [lia|].
  exists m, g', emb, et, dt, ee, de, fe, fd.
  assert (Hg : g' = snd (default (m, g')
                  (get_model 1000 16 2 2 4 32 "relu" (S754_zero false) None
                     None empty_graph))) by (by rewrite Hrun).
  assert (Hwt : Layer "Token-Embedding" (Embedding 1000 16 w t) =
                Layer "Token-Embedding" (Embedding 1000 16 None true)).
  { rewrite Hg in Hone. vm_compute in Hone. congruence. }
  rewrite Hwt in Hemb.
  repeat split; eauto.
Defined.

(** Witness for C7: the same configuration; the dense layer is called on
    the residual sum that ends [Decoder-2]. *)
Lemma model_inputs_and_output_witness :
  exists m g' encoder_input decoder_input decoded_layer ins,
    get_model 1000 16 2 2 4 32 "relu" (S754_zero false) None None empty_graph
      = Some (m, g') /\
    inputs m = [encoder_input; decoder_input] /\
    producer g' (outputs m) =
      Some (Layer "Output" (Dense 1000 "softmax"), Single decoded_layer) /\
    producer g' decoded_layer =
      Some (Layer "Decoder-2-FeedForward-Add" Add, ins).
Proof.
  destruct (model_inputs_and_output 1000 16 2 2 4 32 "relu"
              (S754_zero false) None None empty_graph)
    as (m & g' & ei & di & dec & Hrun & Hin & _ & _ & _ & Hout & Hlast & _).
  destruct Hlast as [ins Hins]; [lia|].
  exists m, g', ei, di, dec, ins. repeat split; assumption.
Defined.

(** The example of the package: two encoder and two decoder blocks over a
    vocabulary of 1000 tokens. *)
Example get_model_example :
  match get_model 1000 16 2 2 4 32 "relu" (S754_zero false) None None
          empty_graph with
  | Some (m, g) =>
      inputs m = [0; 15] /\ outputs m = 36 /\
      length (layers g) = 36 /\ length (nodes g) = 37 /\
      producer g 36 =
        Some (Layer "Output" (Dense 1000 "softmax"), Single 35) /\
      producer g 21 =
        Some (Layer "Decoder-1-MultiHeadQueryAttention"
                (MultiHeadAttention 4 "relu" false), Multi [20; 14; 14])
  | None => False
  end.
Proof. vm_compute. repeat split; reflexivity. Qed.

(** * Further properties of the module *)

(** ** Errors and edge cases *)

(** X1.  [_wrap_layer] never returns when its transform raises, nor when
    its input is the empty list: the list has no first element to add
    back, so [input_layer[0]] raises even if the transform accepted it. *)
Theorem wrap_layer_raises_on_bad_input name input build_func dropout_rate g :
  build_func input g = None \/ input = Multi [] ->
  _wrap_layer name input build_func dropout_rate g = None.
Proof.
  intros [Hb| ->].
  - unfold _wrap_layer, mbind, M_bind. by rewrite Hb.
  - destruct (build_func (Multi []) g) as [[raw g1]|] eqn:Hb.
    + by eapply wrap_layer_empty_list_raises.
    + unfold _wrap_layer, mbind, M_bind. by rewrite Hb.
Qed.

Lemma wrap_layer_raises_on_bad_input_witness :
  _wrap_layer "Q" (Multi []) (_attention_builder "Q" 4 "relu" false)
    (S754_zero false) empty_graph = None.
Proof.
  apply (wrap_layer_raises_on_bad_input "Q" (Multi [])
           (_attention_builder "Q" 4 "relu" false) (S754_zero false)
           empty_graph).
  right. reflexivity.
Defined.

(** X2.  A stack builder called with a depth that is zero or negative
    runs no block: it returns its input and leaves the graph unchanged. *)
Theorem stack_nonpositive_depth_identity (n : Z) input_layer encoded_layer
    head_num hidden_dim activation dropout_rate g :
  (n <= 0)%Z ->
  get_encoders n input_layer head_num hidden_dim activation dropout_rate g =
    Some (input_layer, g) /\
  get_decoders n input_layer encoded_layer head_num hidden_dim activation
    dropout_rate g = Some (input_layer, g).
Proof.
  intros Hn. unfold get_encoders, get_decoders, range.
  by replace (Z.to_nat n) with 0 by lia.
Qed.

Lemma stack_nonpositive_depth_identity_witness :
  get_encoders (-3) 0 4 32 "relu" (S754_zero false)
    (Graph [Layer "In" InputLayer] [Node 0 (Multi [])]) =
    Some (0, Graph [Layer "In" InputLayer] [Node 0 (Multi [])]) /\
  get_decoders (-3) 0 0 4 32 "relu" (S754_zero false)
    (Graph [Layer "In" InputLayer] [Node 0 (Multi [])]) =
    Some (0, Graph [Layer "In" InputLayer] [Node 0 (Multi [])]).
Proof.
  apply (stack_nonpositive_depth_identity (-3) 0 0 4 32 "relu"
           (S754_zero false)
           (Graph [Layer "In" InputLayer] [Node 0 (Multi [])])).
  lia.
Defined.

(** ** Wiring inside a block *)



(** ** The encoder output in the decoder stack *)

Lemma decoder_nodes_triples a b x enc rate :
  List.filter is_triple (decoder_nodes a b x enc rate) =
  [Node (a + S (stage_last rate))
     (Multi [b + stage_last rate; enc; enc])].
Proof.
  unfold decoder_nodes, stage_nodes, residual_nodes, stage_last.
  by destruct (rate_pos rate).
Qed.

Lemma stack_triples enc rate n a b x :
  Forall (fun nd => exists q, node_inputs nd = Multi [q; enc; enc])
    (List.filter is_triple
       (stack_nodes (fun a b x => decoder_nodes a b x enc rate)
          (decoder_last rate) n a b x)) /\
  length (List.filter is_triple
            (stack_nodes (fun a b x => decoder_nodes a b x enc rate)
               (decoder_last rate) n a b x)) = n.
Proof.
  revert a b x. induction n as [|n IH]; intros a b x; [by split|].
  cbn [stack_nodes]. rewrite List.filter_app, decoder_nodes_triples.
  destruct (IH (a + S (decoder_last rate)) (b + S (decoder_last rate))
              (b + decoder_last rate)) as [IH1 IH2].
  split.
  - constructor; [by eexists|done].
  - simpl. by rewrite IH2.
Qed.

(** X5.  [get_decoders] hands the same [encoded_layer] to every block:
    the calls on a list of three tensors that it creates are exactly one
    per block, and each has [encoded_layer] as both its second (key) and
    third (value) element. *)
Theorem decoders_share_encoded decoder_num input_layer encoded_layer
    head_num hidden_dim activation dropout_rate g :
  exists out g',
    get_decoders decoder_num input_layer encoded_layer head_num hidden_dim
      activation dropout_rate g = Some (out, g') /\
    Forall (fun nd => exists q,
              node_inputs nd = Multi [q; encoded_layer; encoded_layer])
      (List.filter is_triple (drop (length (nodes g)) (nodes g'))) /\
    length (List.filter is_triple (drop (length (nodes g)) (nodes g'))) =
      Z.to_nat decoder_num.
Proof.
  eexists _, _. split; [apply get_decoders_run|].
  rewrite drop_extend_nodes. apply stack_triples.
Qed.

(** ** Dropout layers and sizes *)

Lemma filter_dropout_stage name kind rate :
  is_dropout (Layer name kind) = false ->
  List.filter is_dropout (stage_layers name kind rate) =
  if rate_pos rate then [Layer (name +:+ "-Dropout") (Dropout rate)] else [].
Proof.
  intros Hk. unfold stage_layers, residual_layers.
  destruct (rate_pos rate); simpl; by rewrite Hk.
Qed.

(** X6.  The model holds a [Dropout] layer only when [dropout_rate > 0]:
    then every wrapped stage has one, carrying that rate (two per encoder
    block, three per decoder block); for any other value, zero, negative
    or not a number, no [Dropout] layer is created at all. *)
Theorem model_dropout_layers token_num embed_dim encoder_num decoder_num
    head_num hidden_dim activation dropout_rate embed_weights embed_trainable
    g :
  exists m g',
    get_model token_num embed_dim encoder_num decoder_num head_num hidden_dim
      activation dropout_rate embed_weights embed_trainable g
      = Some (m, g') /\
    List.filter is_dropout (drop (length (layers g)) (layers g')) =
      if rate_pos dropout_rate then
        (i ← range encoder_num;
         [Layer ((("Encoder-" +:+ pretty (i + 1)%Z)
                  +:+ "-MultiHeadSelfAttention") +:+ "-Dropout")
            (Dropout dropout_rate);
          Layer ((("Encoder-" +:+ pretty (i + 1)%Z)
                  +:+ "-FeedForward") +:+ "-Dropout")
            (Dropout dropout_rate)]) ++
        (i ← range decoder_num;
         [Layer ((("Decoder-" +:+ pretty (i + 1)%Z)
                  +:+ "-MultiHeadSelfAttention") +:+ "-Dropout")
            (Dropout dropout_rate);
          Layer ((("Decoder-" +:+ pretty (i + 1)%Z)
                  +:+ "-MultiHeadQueryAttention") +:+ "-Dropout")
            (Dropout dropout_rate);
          Layer ((("Decoder-" +:+ pretty (i + 1)%Z)
                  +:+ "-FeedForward") +:+ "-Dropout")
            (Dropout dropout_rate)])
      else [].
Proof.
  eexists _, _. split; [apply get_model_run|].
  rewrite drop_extend_layers.
  unfold model_layers, encoder_stack_layers, decoder_stack_layers.
  rewrite !List.filter_app, !filter_bind.
  cbn [List.filter is_dropout layer_kind token_embedding app].
  rewrite app_nil_r.
  destruct (rate_pos dropout_rate) eqn:Hpos.
  - f_equal; apply list_bind_ext; intros i;
      unfold encoder_layers, decoder_layers;
      rewrite !List.filter_app, !filter_dropout_stage by done;
      by rewrite Hpos.
  - rewrite (list_bind_ext _ (fun _ => [])), list_bind_nil.
    + rewrite (list_bind_ext _ (fun _ => [])), list_bind_nil; [done|].
      intros i. unfold decoder_layers.
      rewrite !List.filter_app, !filter_dropout_stage by done.
      by rewrite Hpos.
    + intros i. unfold encoder_layers.
      rewrite !List.filter_app, !filter_dropout_stage by done.
      by rewrite Hpos.
Qed.

Lemma stage_nodes_layers a b input skip rate :
  node_layer <$> stage_nodes a b input skip rate = seq a (S (stage_last rate)).
Proof.
  unfold stage_nodes, residual_nodes, stage_last.
  destruct (rate_pos rate); cbn; repeat (f_equal; try lia).
Qed.

Lemma encoder_nodes_layers a b x rate :
  node_layer <$> encoder_nodes a b x rate = seq a (S (encoder_last rate)).
Proof.
  unfold encoder_nodes, encoder_last. cbv zeta.
  rewrite fmap_app, !stage_nodes_layers.
  replace (S (S (stage_last rate) + stage_last rate))
    with (S (stage_last rate) + S (stage_last rate)) by lia.
  by rewrite List.seq_app.
Qed.

Lemma decoder_nodes_layers a b x enc rate :
  node_layer <$> decoder_nodes a b x enc rate = seq a (S (decoder_last rate)).
Proof.
  unfold decoder_nodes, decoder_last. cbv zeta.
  rewrite !fmap_app, !stage_nodes_layers.
  replace (S (S (stage_last rate) + S (stage_last rate) + stage_last rate))
    with (S (stage_last rate) + (S (stage_last rate) + S (stage_last rate)))
    by lia.
  rewrite !List.seq_app. repeat (f_equal; try lia).
Qed.

Lemma stack_nodes_layers block last n a b x :
  (forall a b x, node_layer <$> block a b x = seq a (S last)) ->
  node_layer <$> stack_nodes block last n a b x = seq a (n * S last).
Proof.
  intros Hblock. revert a b x.
  induction n as [|n IH]; intros a b x; [done|].
  cbn [stack_nodes]. rewrite fmap_app, Hblock, IH.
  replace (S n * S last) with (S last + n * S last) by lia.
  by rewrite List.seq_app.
Qed.

(** The layer each node of the model calls, in creation order: every
    layer once, in the order the layers were created, except that the
    token embedding (the first layer) is called after each of the two
    input layers. *)
Lemma model_nodes_layers encoder_num decoder_num rate a b :
  node_layer <$> model_nodes encoder_num decoder_num rate a b =
  [a + 1; a; a + 2] ++
  seq (a + 3) (Z.to_nat encoder_num * S (encoder_last rate)) ++
  [a + decoder_input_pos encoder_num rate; a;
   a + decoder_input_pos encoder_num rate + 1] ++
  seq (a + decoder_input_pos encoder_num rate + 2)
    (Z.to_nat decoder_num * S (decoder_last rate)) ++
  [a + output_pos encoder_num decoder_num rate - 1].
Proof.
  unfold model_nodes. cbv zeta. rewrite !fmap_app.
  rewrite (stack_nodes_layers (fun a b x => encoder_nodes a b x rate))
    by (intros; apply encoder_nodes_layers).
  rewrite (stack_nodes_layers (fun a' b' x => decoder_nodes a' b' x _ rate))
    by (intros; apply decoder_nodes_layers).
  done.
Qed.

Lemma model_call_counts n1 n2 a :
  [a + 1; a; a + 2] ++ seq (a + 3) n1 ++
  [a + (3 + n1); a; a + (3 + n1) + 1] ++ seq (a + (3 + n1) + 2) n2 ++
  [a + (3 + n1 + 3 + n2) - 1]
  ≡ₚ a :: seq a (6 + n1 + n2).
Proof.
  replace (6 + n1 + n2) with (3 + (n1 + (2 + (n2 + 1)))) by lia.
  rewrite !List.seq_app. cbn [seq app].
  replace (a + (3 + n1 + 3 + n2) - 1) with (a + 3 + n1 + 2 + n2) by lia.
  replace (a + (3 + n1)) with (a + 3 + n1) by lia.
  replace (S (S (S a))) with (a + 3) by lia.
  replace (S (a + 3 + n1)) with (a + 3 + n1 + 1) by lia.
  replace (S a) with (a + 1) by lia.
  replace (S (a + 1)) with (a + 2) by lia.
  set (S1 := seq (a + 3) n1). set (S2 := seq (a + 3 + n1 + 2) n2).
  set (rest := (a + 3 + n1 + 1) :: S2 ++ [a + 3 + n1 + 2 + n2]).
  etrans; [apply perm_swap|]. apply perm_skip.
  change (S1 ++ a + 3 + n1 :: a :: rest)
    with (S1 ++ [a + 3 + n1] ++ a :: rest).
  rewrite (app_assoc S1 [a + 3 + n1] (a :: rest)).
  rewrite <- Permutation_middle, <- app_assoc. cbn [app].
  etrans; [apply perm_skip, perm_swap|]. apply perm_swap.
Qed.

(** X7.  [get_model] creates six layers of its own plus, with [k] layers
    per wrapped stage ([k] is 4 with dropout and 3 without), [2 * k] per
    encoder block and [3 * k] per decoder block.  It creates exactly one
    node more than layers: the layers that the created nodes call are,
    up to order, every created layer once plus the first created layer,
    the token embedding, a second time. *)
Theorem model_size token_num embed_dim encoder_num decoder_num head_num
    hidden_dim activation dropout_rate embed_weights embed_trainable g :
  exists m g' w t,
    get_model token_num embed_dim encoder_num decoder_num head_num hidden_dim
      activation dropout_rate embed_weights embed_trainable g
      = Some (m, g') /\
    length (layers g') =
      length (layers g) + 6 +
      Z.to_nat encoder_num * (2 * if rate_pos dropout_rate then 4 else 3) +
      Z.to_nat decoder_num * (3 * if rate_pos dropout_rate then 4 else 3) /\
    length (nodes g') - length (nodes g) =
      S (length (layers g') - length (layers g)) /\
    layers g' !! length (layers g) =
      Some (Layer "Token-Embedding" (Embedding token_num embed_dim w t)) /\
    node_layer <$> drop (length (nodes g)) (nodes g') ≡ₚ
      length (layers g) ::
      seq (length (layers g)) (length (layers g') - length (layers g)).
Proof.
  eexists _, _, _, _. split; [apply get_model_run|].
  rewrite drop_extend_nodes, layers_extend, nodes_extend, !length_app.
  assert (HL : length (model_layers token_num embed_dim encoder_num
                         decoder_num head_num hidden_dim activation
                         dropout_rate embed_weights embed_trainable) =
               6 + Z.to_nat encoder_num * S (encoder_last dropout_rate) +
               Z.to_nat decoder_num * S (decoder_last dropout_rate)).
  { unfold model_layers. rewrite !length_app.
    rewrite encoder_stack_layers_length, decoder_stack_layers_length.
    cbn [length]. lia. }
  assert (HN : length (model_nodes encoder_num decoder_num dropout_rate
                         (length (layers g)) (length (nodes g))) =
               7 + Z.to_nat encoder_num * S (encoder_last dropout_rate) +
               Z.to_nat decoder_num * S (decoder_last dropout_rate)).
  { unfold model_nodes. cbv zeta. rewrite !length_app.
    rewrite encoder_stack_nodes_length, decoder_stack_nodes_length.
    cbn [length]. lia. }
  split_and!.
  - rewrite HL. unfold encoder_last, decoder_last, stage_last.
    destruct (rate_pos dropout_rate); lia.
  - rewrite HL, HN. lia.
  - rewrite lookup_app_r by lia. rewrite Nat.sub_diag. reflexivity.
  - rewrite model_nodes_layers.
    replace (length (layers g) +
             length (model_layers token_num embed_dim encoder_num
                       decoder_num head_num hidden_dim activation
                       dropout_rate embed_weights embed_trainable) -
             length (layers g))
      with (6 + Z.to_nat encoder_num * S (encoder_last dropout_rate) +
            Z.to_nat decoder_num * S (decoder_last dropout_rate)) by lia.
    apply model_call_counts.
Qed.

(** ** What is already in the graph *)




(** ** Well-formedness is kept *)

Lemma wf_extend g L N :
  wf_graph g -> wf_chunk (length (layers g)) (length (nodes g)) L N ->
  wf_graph (extend g L N).
Proof.
  intros Hg Hc i nd. rewrite nodes_extend, layers_extend, length_app.
  intros Hi. apply lookup_app_Some in Hi as [Hi|[Hge Hi]].
  - destruct (Hg i nd Hi) as [H1 H2]. split; [lia|done].
  - destruct (Hc _ nd Hi) as [H1 H2]. split; [done|].
    eapply Forall_impl; [exact H2|]. intros t Ht. simpl in Ht. lia.
Qed.

Lemma wf_chunk_app a b L1 N1 L2 N2 :
  wf_chunk a b L1 N1 ->
  wf_chunk (a + length L1) (b + length N1) L2 N2 ->
  wf_chunk a b (L1 ++ L2) (N1 ++ N2).
Proof.
  intros H1 H2 i nd Hi. rewrite length_app.
  apply lookup_app_Some in Hi as [Hi|[Hge Hi]].
  - destruct (H1 i nd Hi) as [Ha Hb]. split; [lia|done].
  - destruct (H2 _ nd Hi) as [Ha Hb]. split; [lia|].
    eapply Forall_impl; [exact Hb|]. intros t Ht. simpl in Ht. lia.
Qed.

Lemma wf_chunk_stage a b name kind input skip rate :
  Forall (fun t => t < b) (arg_tensors input) -> skip < b ->
  wf_chunk a b (stage_layers name kind rate)
    (stage_nodes a b input skip rate).
Proof.
  intros Hin Hskip i nd Hi. rewrite stage_layers_length.
  assert (Hin0 : Forall (fun t => t < b + 0) (arg_tensors input)).
  { eapply Forall_impl; [exact Hin|]. intros t Ht. simpl in Ht. lia. }
  unfold stage_nodes, residual_nodes, stage_last in *.
  destruct (rate_pos rate).
  - destruct i as [|[|[|[|i]]]]; simplify_eq/=; (split; [lia|]);
      first [exact Hin0
            | repeat first [apply Forall_nil_2 | apply Forall_cons_2]; lia].
  - destruct i as [|[|[|i]]]; simplify_eq/=; (split; [lia|]);
      first [exact Hin0
            | repeat first [apply Forall_nil_2 | apply Forall_cons_2]; lia].
Qed.

Lemma wf_chunk_encoder a b x name head_num hidden_dim activation rate :
  x < b ->
  wf_chunk a b (encoder_layers name head_num hidden_dim activation rate)
    (encoder_nodes a b x rate).
Proof.
  intros Hx. unfold encoder_layers, encoder_nodes. cbv zeta.
  apply wf_chunk_app.
  - apply wf_chunk_stage; [|done].
    repeat first [apply Forall_nil_2 | apply Forall_cons_2]; lia.
  - rewrite stage_layers_length, stage_nodes_length.
    apply wf_chunk_stage; [|lia].
    repeat first [apply Forall_nil_2 | apply Forall_cons_2]; lia.
Qed.

Lemma wf_chunk_decoder a b x enc name head_num hidden_dim activation rate :
  x < b -> enc < b ->
  wf_chunk a b (decoder_layers name head_num hidden_dim activation rate)
    (decoder_nodes a b x enc rate).
Proof.
  intros Hx He. unfold decoder_layers, decoder_nodes. cbv zeta.
  apply wf_chunk_app.
  { apply wf_chunk_stage; [|done].
    repeat first [apply Forall_nil_2 | apply Forall_cons_2]; lia. }
  rewrite stage_layers_length, stage_nodes_length.
  apply wf_chunk_app.
  - apply wf_chunk_stage; [|lia].
    repeat first [apply Forall_nil_2 | apply Forall_cons_2]; lia.
  - rewrite stage_layers_length, stage_nodes_length.
    apply wf_chunk_stage; [|lia].
    repeat first [apply Forall_nil_2 | apply Forall_cons_2]; lia.
Qed.

Lemma wf_chunk_stack (block_layers : Z -> list layer)
    (block_nodes : nat -> nat -> tensor -> list node) last b0 :
  (forall i, length (block_layers i) = S last) ->
  (forall a b x, length (block_nodes a b x) = S last) ->
  (forall a b x i, b0 <= b -> x < b ->
     wf_chunk a b (block_layers i) (block_nodes a b x)) ->
  forall (idx : list Z) a b x, b0 <= b -> x < b ->
    wf_chunk a b (i ← idx; block_layers i)
      (stack_nodes block_nodes last (length idx) a b x).
Proof.
  intros HL HN Hblock idx.
  induction idx as [|i idx IH]; intros a b x Hb Hx; [by intros ? ?|].
  cbn [mbind list_bind length stack_nodes]. apply wf_chunk_app.
  - by apply Hblock.
  - rewrite HL, HN. apply IH; lia.
Qed.

Lemma stack_out_bound last n b x :
  x < b -> stack_out last n b x < b + n * S last.
Proof. intros Hx. destruct n; simpl; lia. Qed.

Lemma wf_chunk_encoder_stack a b x encoder_num head_num hidden_dim activation
    rate :
  x < b ->
  wf_chunk a b
    (encoder_stack_layers encoder_num head_num hidden_dim activation rate)
    (stack_nodes (fun a b x => encoder_nodes a b x rate) (encoder_last rate)
       (Z.to_nat encoder_num) a b x).
Proof.
  intros Hx. unfold encoder_stack_layers. rewrite <- range_length.
  apply wf_chunk_stack with
    (block_layers := fun i => encoder_layers _ _ _ _ _)
    (block_nodes := fun a b x => encoder_nodes a b x rate) (b0 := 0).
  - intros. apply encoder_layers_length.
  - intros. apply encoder_nodes_length.
  - intros. by apply wf_chunk_encoder.
  - lia.
  - done.
Qed.

Lemma wf_chunk_decoder_stack a b x enc decoder_num head_num hidden_dim
    activation rate :
  x < b -> enc < b ->
  wf_chunk a b
    (decoder_stack_layers decoder_num head_num hidden_dim activation rate)
    (stack_nodes (fun a b x => decoder_nodes a b x enc rate)
       (decoder_last rate) (Z.to_nat decoder_num) a b x).
Proof.
  intros Hx He. unfold decoder_stack_layers. rewrite <- range_length.
  apply wf_chunk_stack with
    (block_layers := fun i => decoder_layers _ _ _ _ _)
    (block_nodes := fun a b x => decoder_nodes a b x enc rate) (b0 := b).
  - intros. apply decoder_layers_length.
  - intros. apply decoder_nodes_length.
  - intros. apply wf_chunk_decoder; lia.
  - lia.
  - done.
Qed.

Lemma wf_chunk_explicit a b (L : list layer) (N : list node) :
  Forall (fun nd => node_layer nd < a + length L) N ->
  (forall i nd, N !! i = Some nd ->
     Forall (fun t => t < b + i) (arg_tensors (node_inputs nd))) ->
  wf_chunk a b L N.
Proof.
  intros HL HN i nd Hi. split; [|by eapply HN].
  by eapply (proj1 (Forall_lookup _ _)) in HL.
Qed.

Lemma wf_chunk_model token_num embed_dim encoder_num decoder_num head_num
    hidden_dim activation rate embed_weights embed_trainable a b :
  wf_chunk a b
    (model_layers token_num embed_dim encoder_num decoder_num head_num
       hidden_dim activation rate embed_weights embed_trainable)
    (model_nodes encoder_num decoder_num rate a b).
Proof.
  unfold model_layers, model_nodes. cbv zeta.
  set (dip := decoder_input_pos encoder_num rate).
  assert (Hdip : dip = 3 + Z.to_nat encoder_num * S (encoder_last rate))
    by done.
  assert (Henc : encoded_pos b encoder_num rate < b + dip).
  { unfold encoded_pos, encoder_embed_pos.
    pose proof (stack_out_bound (encoder_last rate) (Z.to_nat encoder_num)
                  (b + 3) (b + 2)). lia. }
  assert (Hdec : decoded_pos b encoder_num decoder_num rate <
                 b + output_pos encoder_num decoder_num rate).
  { unfold decoded_pos, decoder_embed_pos, output_pos. fold dip.
    pose proof (stack_out_bound (decoder_last rate) (Z.to_nat decoder_num)
                  (b + dip + 3) (b + (dip + 2))). lia. }
  apply wf_chunk_app.
  { apply wf_chunk_explicit.
    - repeat first [apply Forall_nil_2 | apply Forall_cons_2]; simpl; lia.
    - intros [|[|[|i]]] nd Hi; simpl in Hi; try discriminate Hi;
        injection Hi as <-; cbn;
        repeat first [apply Forall_nil_2 | apply Forall_cons_2]; lia. }
  apply wf_chunk_app.
  { cbn [length]. apply wf_chunk_encoder_stack.
    unfold encoder_embed_pos. lia. }
  rewrite encoder_stack_layers_length, encoder_stack_nodes_length.
  cbn [length].
  apply wf_chunk_app.
  { apply wf_chunk_explicit.
    - repeat first [apply Forall_nil_2 | apply Forall_cons_2]; simpl; lia.
    - intros [|[|[|i]]] nd Hi; simpl in Hi; try discriminate Hi;
        injection Hi as <-; cbn;
        repeat first [apply Forall_nil_2 | apply Forall_cons_2]; lia. }
  cbn [length].
  apply wf_chunk_app.
  { replace (a + 3 + Z.to_nat encoder_num * S (encoder_last rate) + 2)
      with (a + dip + 2) by lia.
    replace (b + 3 + Z.to_nat encoder_num * S (encoder_last rate) + 3)
      with (b + dip + 3) by lia.
    apply wf_chunk_decoder_stack; lia. }
  rewrite decoder_stack_layers_length, decoder_stack_nodes_length.
  apply wf_chunk_explicit.
  - repeat first [apply Forall_nil_2 | apply Forall_cons_2].
    unfold output_pos. fold dip. cbn [node_layer length]. lia.
  - intros [|i] nd Hi; simpl in Hi; try discriminate Hi.
    injection Hi as <-. cbn [arg_tensors node_inputs].
    repeat first [apply Forall_nil_2 | apply Forall_cons_2].
    unfold output_pos in Hdec. fold dip in Hdec. lia.
Qed.

(** X8.  The stack builders keep the graph well formed: started on a
    graph without dangling or forward references, with an input tensor
    (and, for the decoder, an encoder output) that exists, they return a
    graph with the same property and a result tensor that exists in
    it. *)
Theorem stacks_keep_graph_well_formed depth input_layer encoded_layer
    head_num hidden_dim activation dropout_rate g :
  wf_graph g ->
  input_layer < length (nodes g) ->
  encoded_layer < length (nodes g) ->
  (exists out g',
     get_encoders depth input_layer head_num hidden_dim activation
       dropout_rate g = Some (out, g') /\
     wf_graph g' /\ out < length (nodes g')) /\
  (exists out g',
     get_decoders depth input_layer encoded_layer head_num hidden_dim
       activation dropout_rate g = Some (out, g') /\
     wf_graph g' /\ out < length (nodes g')).
Proof.
  intros Hg Hx He. split.
  - eexists _, _. split; [apply get_encoders_run|]. split.
    + apply wf_extend; [done|]. by apply wf_chunk_encoder_stack.
    + rewrite nodes_extend, length_app, encoder_stack_nodes_length.
      pose proof (stack_out_bound (encoder_last dropout_rate)
                    (Z.to_nat depth) _ _ Hx). lia.
  - eexists _, _. split; [apply get_decoders_run|]. split.
    + apply wf_extend; [done|]. by apply wf_chunk_decoder_stack.
    + rewrite nodes_extend, length_app, decoder_stack_nodes_length.
      pose proof (stack_out_bound (decoder_last dropout_rate)
                    (Z.to_nat depth) _ _ Hx). lia.
Qed.

Lemma stacks_keep_graph_well_formed_witness :
  (exists out g',
     get_encoders 2 0 4 32 "relu" (S754_zero false)
       (Graph [Layer "In" InputLayer] [Node 0 (Multi [])]) = Some (out, g') /\
     wf_graph g' /\ out < length (nodes g')) /\
  (exists out g',
     get_decoders 2 0 0 4 32 "relu" (S754_zero false)
       (Graph [Layer "In" InputLayer] [Node 0 (Multi [])]) = Some (out, g') /\
     wf_graph g' /\ out < length (nodes g')).
Proof.
  apply (stacks_keep_graph_well_formed 2 0 0 4 32 "relu" (S754_zero false)
           (Graph [Layer "In" InputLayer] [Node 0 (Multi [])])).
  - intros [|i] nd Hi; simplify_eq/=. split; [lia|constructor].
  - simpl. lia.
  - simpl. lia.
Defined.

(** X9.  [get_model] keeps the graph well formed, and the model it
    returns names tensors of that graph: what it appends never refers to
    a layer that does not exist or to a tensor created later, so the
    assembled graph is acyclic. *)
Theorem model_graph_well_formed token_num embed_dim encoder_num decoder_num
    head_num hidden_dim activation dropout_rate embed_weights embed_trainable
    g :
  wf_graph g ->
  exists m g',
    get_model token_num embed_dim encoder_num decoder_num head_num hidden_dim
      activation dropout_rate embed_weights embed_trainable g
      = Some (m, g') /\
    wf_graph g' /\
    Forall (fun t => t < length (nodes g')) (inputs m) /\
    outputs m < length (nodes g').
Proof.
  intros Hg. eexists _, _. split; [apply get_model_run|].
  assert (HN : length (model_nodes encoder_num decoder_num dropout_rate
                         (length (layers g)) (length (nodes g))) =
               S (output_pos encoder_num decoder_num dropout_rate)).
  { unfold model_nodes. cbv zeta. rewrite !length_app.
    rewrite encoder_stack_nodes_length, decoder_stack_nodes_length.
    unfold output_pos, decoder_input_pos. cbn [length]. lia. }
  split; [apply wf_extend; [done|apply wf_chunk_model]|].
  rewrite nodes_extend, length_app, HN. cbn [inputs outputs]. split.
  - repeat first [apply Forall_nil_2 | apply Forall_cons_2];
      unfold output_pos; lia.
  - lia.
Qed.

Lemma model_graph_well_formed_witness :
  exists m g',
    get_model 1000 16 2 2 4 32 "relu" (S754_zero false) None None empty_graph
      = Some (m, g') /\
    wf_graph g' /\
    Forall (fun t => t < length (nodes g')) (inputs m) /\
    outputs m < length (nodes g').
Proof.
  apply (model_graph_well_formed 1000 16 2 2 4 32 "relu" (S754_zero false)
           None None empty_graph).
  intros i nd Hi. by destruct i.
Defined.

(** ** Layer names are distinct *)

Lemma string_app_cons c (s t : string) :
  String c s +:+ t = String c (s +:+ t).
Proof. reflexivity. Qed.

Lemma string_app_nil (t : string) : "" +:+ t = t.
Proof. reflexivity. Qed.

Lemma string_app_assoc (s1 s2 s3 : string) :
  (s1 +:+ s2) +:+ s3 = s1 +:+ (s2 +:+ s3).
Proof.
  induction s1 as [|c s1 IH]; [done|].
  rewrite !string_app_cons. by f_equal.
Qed.

Lemma pretty_N_char_digit x : is_digit (pretty_N_char x) = true.
Proof. unfold pretty_N_char. by repeat case_match. Qed.

Lemma pretty_N_go_digits x s :
  all_digits s = true -> all_digits (pretty_N_go x s) = true.
Proof.
  revert s. induction (N.lt_wf_0 x) as [x _ IH]; intros s Hs.
  destruct (decide (x = 0)%N) as [->|Hx].
  - by rewrite pretty_N_go_0.
  - rewrite pretty_N_go_step by lia. apply IH.
    + apply N.div_lt; lia.
    + simpl. by rewrite pretty_N_char_digit, Hs.
Qed.

Lemma pretty_pos_digits (z : Z) :
  (0 < z)%Z -> all_digits (pretty z) = true.
Proof.
  destruct z as [|p|p]; try lia. intros _.
  unfold pretty, pretty_Z, pretty, pretty_positive, pretty, pretty_N.
  case_decide; [done|]. by apply pretty_N_go_digits.
Qed.

Lemma digits_dash_split d1 d2 r1 r2 :
  all_digits d1 = true -> all_digits d2 = true ->
  d1 +:+ String "-" r1 = d2 +:+ String "-" r2 -> d1 = d2 /\ r1 = r2.
Proof.
  revert d2. induction d1 as [|c1 d1 IH]; intros [|c2 d2] H1 H2 Heq;
    rewrite ?string_app_cons, ?string_app_nil in Heq; simpl in H1, H2.
  - by simplify_eq.
  - injection Heq as <- _. done.
  - injection Heq as -> _. done.
  - injection Heq as -> Heq.
    apply andb_prop in H1 as [_ H1]. apply andb_prop in H2 as [_ H2].
    destruct (IH d2 H1 H2 Heq) as [-> ->]. done.
Qed.

Lemma digits_dash_head d r c rest :
  all_digits d = true -> d +:+ String "-" r = String c rest ->
  is_digit c = true \/ c = "-"%char.
Proof.
  destruct d as [|c' d]; intros Hd Heq;
    rewrite ?string_app_cons, ?string_app_nil in Heq; simpl in Hd.
  - injection Heq as <- _. by right.
  - injection Heq as <- _. apply andb_prop in Hd as [Hc _]. by left.
Qed.

Lemma fmap_list_bind {A B C} (f : B -> C) (h : A -> list B) (xs : list A) :
  f <$> (x ← xs; h x) = (x ← xs; f <$> h x).
Proof.
  induction xs as [|x xs IH]; [done|].
  cbn [mbind list_bind]. by rewrite fmap_app, IH.
Qed.

Lemma stage_layer_names bn k kind rate :
  layer_name <$> stage_layers (bn +:+ k) kind rate =
  (fun suf => bn +:+ suf) <$> stage_suffixes k rate.
Proof.
  unfold stage_layers, residual_layers, stage_suffixes.
  destruct (rate_pos rate); cbn [fmap list_fmap layer_name];
    by rewrite !string_app_assoc.
Qed.

Lemma encoder_layer_names bn head_num hidden_dim activation rate :
  layer_name <$> encoder_layers bn head_num hidden_dim activation rate =
  (fun suf => bn +:+ suf) <$> encoder_suffixes rate.
Proof.
  unfold encoder_layers, encoder_suffixes.
  by rewrite !fmap_app, !stage_layer_names.
Qed.

Lemma decoder_layer_names bn head_num hidden_dim activation rate :
  layer_name <$> decoder_layers bn head_num hidden_dim activation rate =
  (fun suf => bn +:+ suf) <$> decoder_suffixes rate.
Proof.
  unfold decoder_layers, decoder_suffixes.
  by rewrite !fmap_app, !stage_layer_names.
Qed.

Lemma suffixes_dash rate :
  Forall (fun s => exists r, s = String "-" r) (encoder_suffixes rate) /\
  Forall (fun s => exists r, s = String "-" r) (decoder_suffixes rate).
Proof.
  unfold encoder_suffixes, decoder_suffixes, stage_suffixes.
  destruct (rate_pos rate); split;
    repeat first [apply Forall_nil_2 | apply Forall_cons_2];
    eexists; reflexivity.
Qed.

Lemma suffixes_NoDup rate :
  NoDup (encoder_suffixes rate) /\ NoDup (decoder_suffixes rate).
Proof.
  unfold encoder_suffixes, decoder_suffixes, stage_suffixes.
  destruct (rate_pos rate); split;
    apply (bool_decide_unpack _); by vm_compute.
Qed.

(** The names of a stack of blocks of role [R] with per-block suffixes
    [sufs]. *)
Section BlockNames.
Context (R : string) (sufs : list string).
Hypothesis sufs_dash : Forall (fun s => exists r, s = String "-" r) sufs.
Hypothesis sufs_NoDup : NoDup sufs.

Lemma block_name_shape n y :
  y ∈ (i ← range n; (fun suf => (R +:+ pretty (i + 1)%Z) +:+ suf) <$> sufs) ->
  exists i r, (0 <= i)%Z /\ String "-" r ∈ sufs /\
    y = R +:+ (pretty (i + 1)%Z +:+ String "-" r).
Proof.
  intros (i & Hy & Hi)%list_elem_of_bind.
  apply list_elem_of_fmap in Hy as (suf & -> & Hsuf).
  unfold range in Hi. apply list_elem_of_fmap in Hi as (k & -> & _).
  destruct (proj1 (Forall_forall _ _) sufs_dash suf Hsuf) as [r ->].
  exists (Z.of_nat k), r. split; [lia|]. split; [done|].
  apply string_app_assoc.
Qed.

Lemma block_names_NoDup n :
  NoDup (i ← range n; (fun suf => (R +:+ pretty (i + 1)%Z) +:+ suf) <$> sufs).
Proof.
  apply NoDup_bind.
  - intros i1 i2 y Hi1 Hi2 Hy1 Hy2.
    unfold range in Hi1, Hi2.
    apply list_elem_of_fmap in Hi1 as (k1 & -> & _).
    apply list_elem_of_fmap in Hi2 as (k2 & -> & _).
    apply list_elem_of_fmap in Hy1 as (s1 & -> & Hs1).
    apply list_elem_of_fmap in Hy2 as (s2 & Heq & Hs2).
    destruct (proj1 (Forall_forall _ _) sufs_dash s1 Hs1) as [r1 ->].
    destruct (proj1 (Forall_forall _ _) sufs_dash s2 Hs2) as [r2 ->].
    rewrite !string_app_assoc in Heq. apply (inj _) in Heq.
    apply digits_dash_split in Heq as [Heq _];
      [|apply pretty_pos_digits; lia..].
    apply (inj pretty) in Heq. lia.
  - intros i _. apply NoDup_fmap_2; [apply _|done].
  - unfold range. apply NoDup_fmap_2; [apply _|apply NoDup_seq].
Qed.
End BlockNames.

Lemma encoder_stack_names encoder_num head_num hidden_dim activation rate :
  layer_name <$>
    encoder_stack_layers encoder_num head_num hidden_dim activation rate =
  (i ← range encoder_num;
   (fun suf => ("Encoder-" +:+ pretty (i + 1)%Z) +:+ suf) <$>
     encoder_suffixes rate).
Proof.
  unfold encoder_stack_layers. rewrite fmap_list_bind.
  apply list_bind_ext. intros i. apply encoder_layer_names.
Qed.

Lemma decoder_stack_names decoder_num head_num hidden_dim activation rate :
  layer_name <$>
    decoder_stack_layers decoder_num head_num hidden_dim activation rate =
  (i ← range decoder_num;
   (fun suf => ("Decoder-" +:+ pretty (i + 1)%Z) +:+ suf) <$>
     decoder_suffixes rate).
Proof.
  unfold decoder_stack_layers. rewrite fmap_list_bind.
  apply list_bind_ext. intros i. apply decoder_layer_names.
Qed.

Lemma disjoint_by_compute (l1 l2 : list string) y :
  bool_decide (Forall (fun x => x ∉ l2) l1) = true ->
  y ∈ l1 -> y ∈ l2 -> False.
Proof.
  intros Hd%bool_decide_eq_true Hy1 Hy2.
  by apply (proj1 (Forall_forall _ _) Hd y Hy1).
Qed.

Lemma subset_by_compute (l1 l2 : list string) y :
  bool_decide (Forall (fun x => x ∈ l2) l1) = true -> y ∈ l1 -> y ∈ l2.
Proof.
  intros Hd%bool_decide_eq_true Hy.
  by apply (proj1 (Forall_forall _ _) Hd y Hy).
Qed.

Lemma fixed_name_cases (P : string -> Prop) (l : list string) y :
  Forall P l -> y ∈ l -> P y.
Proof. intros Hl Hy. by apply (proj1 (Forall_forall _ _) Hl y Hy). Qed.

(** A name that starts like a block name continues with a digit or a
    dash, so it is none of the names [get_model] gives its own layers,
    and the blocks of the two stacks never share a name. *)
Ltac name_clash H :=
  repeat (rewrite ?string_app_cons, ?string_app_nil in H;
          first [ discriminate H
                | let H' := fresh in
                  injection H as H'; try clear H; rename H' into H ]);
  try (apply digits_dash_head in H as [H|H];
       [discriminate H | discriminate H
       | apply pretty_pos_digits; lia]).

Lemma model_names_NoDup token_num embed_dim encoder_num decoder_num head_num
    hidden_dim activation rate embed_weights embed_trainable :
  NoDup (layer_name <$>
           model_layers token_num embed_dim encoder_num decoder_num head_num
             hidden_dim activation rate embed_weights embed_trainable).
Proof.
  unfold model_layers.
  rewrite !fmap_app, encoder_stack_names, decoder_stack_names.
  cbn [fmap list_fmap layer_name token_embedding].
  destruct (suffixes_dash rate) as [HEd HDd].
  destruct (suffixes_NoDup rate) as [HEn HDn].
  set (A := range encoder_num ≫= _). set (B := range decoder_num ≫= _).
  assert (HA : forall y, y ∈ A -> exists i r, (0 <= i)%Z /\
            y = "Encoder-" +:+ (pretty (i + 1)%Z +:+ String "-" r)).
  { intros y Hy. apply block_name_shape in Hy as (i & r & ? & _ & ?);
      [eauto|done]. }
  assert (HB : forall y, y ∈ B -> exists i r, (0 <= i)%Z /\
            y = "Decoder-" +:+ (pretty (i + 1)%Z +:+ String "-" r)).
  { intros y Hy. apply block_name_shape in Hy as (i & r & ? & _ & ?);
      [eauto|done]. }
  assert (HAfix : forall y, y ∈ A ->
            y ∉ ["Token-Embedding"; "Encoder-Input"; "Encoder-Embedding";
                 "Decoder-Input"; "Decoder-Embedding"; "Output"]).
  { intros y (i & r & Hi & ->)%HA Hy.
    apply (fixed_name_cases
             (fun f => "Encoder-" +:+ (pretty (i + 1)%Z +:+ String "-" r) = f
                       -> False) _ _) with (2 := Hy); [|reflexivity].
    repeat first [apply Forall_nil_2 | apply Forall_cons_2];
      intros Hf; name_clash Hf. }
  assert (HBfix : forall y, y ∈ B ->
            y ∉ ["Token-Embedding"; "Encoder-Input"; "Encoder-Embedding";
                 "Decoder-Input"; "Decoder-Embedding"; "Output"]).
  { intros y (i & r & Hi & ->)%HB Hy.
    apply (fixed_name_cases
             (fun f => "Decoder-" +:+ (pretty (i + 1)%Z +:+ String "-" r) = f
                       -> False) _ _) with (2 := Hy); [|reflexivity].
    repeat first [apply Forall_nil_2 | apply Forall_cons_2];
      intros Hf; name_clash Hf. }
  assert (HAB : forall y, y ∈ A -> y ∉ B).
  { intros y (i & r & Hi & ->)%HA (i' & r' & Hi' & Hy)%HB. name_clash Hy. }
  apply NoDup_app. split_and!.
  - apply (bool_decide_unpack _). by vm_compute.
  - intros y Hy Hin. rewrite !elem_of_app in Hin.
    destruct Hin as [Hin|[Hin|[Hin|Hin]]].
    + apply (HAfix y Hin).
      eapply subset_by_compute; [|exact Hy]. by vm_compute.
    + eapply disjoint_by_compute; [|exact Hy|exact Hin]. by vm_compute.
    + apply (HBfix y Hin).
      eapply subset_by_compute; [|exact Hy]. by vm_compute.
    + eapply disjoint_by_compute; [|exact Hy|exact Hin]. by vm_compute.
  - apply NoDup_app. split_and!.
    + by apply block_names_NoDup.
    + intros y Hy Hin. rewrite !elem_of_app in Hin.
      destruct Hin as [Hin|[Hin|Hin]].
      * apply (HAfix y Hy).
        eapply subset_by_compute; [|exact Hin]. by vm_compute.
      * by apply (HAB y).
      * apply (HAfix y Hy).
        eapply subset_by_compute; [|exact Hin]. by vm_compute.
    + apply NoDup_app. split_and!.
      * apply (bool_decide_unpack _). by vm_compute.
      * intros y Hy Hin. rewrite !elem_of_app in Hin.
        destruct Hin as [Hin|Hin].
        -- apply (HBfix y Hin).
           eapply subset_by_compute; [|exact Hy]. by vm_compute.
        -- eapply disjoint_by_compute; [|exact Hy|exact Hin].
           by vm_compute.
      * apply NoDup_app. split_and!.
        -- by apply block_names_NoDup.
        -- intros y Hy Hin. apply (HBfix y Hy).
           eapply subset_by_compute; [|exact Hin]. by vm_compute.
        -- apply NoDup_singleton.
Qed.

(** X12.  The layers one call of a stack builder creates have pairwise
    distinct names, for every depth and with or without dropout. *)
Theorem stack_names_distinct depth input_layer encoded_layer head_num
    hidden_dim activation dropout_rate g :
  (exists out g',
     get_encoders depth input_layer head_num hidden_dim activation
       dropout_rate g = Some (out, g') /\
     NoDup (layer_name <$> drop (length (layers g)) (layers g'))) /\
  (exists out g',
     get_decoders depth input_layer encoded_layer head_num hidden_dim
       activation dropout_rate g = Some (out, g') /\
     NoDup (layer_name <$> drop (length (layers g)) (layers g'))).
Proof.
  destruct (suffixes_dash dropout_rate) as [HEd HDd].
  destruct (suffixes_NoDup dropout_rate) as [HEn HDn].
  split.
  - eexists _, _. split; [apply get_encoders_run|].
    rewrite drop_extend_layers, encoder_stack_names.
    by apply block_names_NoDup.
  - eexists _, _. split; [apply get_decoders_run|].
    rewrite drop_extend_layers, decoder_stack_names.
    by apply block_names_NoDup.
Qed.

(** X13.  The layers one call of [get_model] creates have pairwise
    distinct names: the six layers of the model itself, the stages of
    every encoder block and the stages of every decoder block never share
    a name, whatever the depths and the dropout rate. *)
Theorem model_names_distinct token_num embed_dim encoder_num decoder_num
    head_num hidden_dim activation dropout_rate embed_weights embed_trainable
    g :
  exists m g',
    get_model token_num embed_dim encoder_num decoder_num head_num hidden_dim
      activation dropout_rate embed_weights embed_trainable g
      = Some (m, g') /\
    NoDup (layer_name <$> drop (length (layers g)) (layers g')).
Proof.
  eexists _, _. split; [apply get_model_run|].
  rewrite drop_extend_layers. apply model_names_NoDup.
Qed.

(** ** What a stack returns *)

Lemma stack_layers_last (f : Z -> list layer) last n :
  (0 < n)%Z -> (forall i, length (f i) = S last) ->
  (i ← range n; f i) !! ((Z.to_nat n - 1) * S last + last) =
  f (n - 1)%Z !! last.
Proof.
  intros Hn Hlen. rewrite (range_last _ Hn), bind_app.
  cbn [mbind list_bind]. rewrite app_nil_r.
  assert (HF : length (i ← range (n - 1); f i) = (Z.to_nat n - 1) * S last).
  { rewrite stack_layers_length with (last := last) by done.
    rewrite range_length. f_equal. lia. }
  rewrite lookup_app_r by lia. f_equal. lia.
Qed.

Lemma encoder_nodes_last a b x rate :
  exists ins,
    encoder_nodes a b x rate !! encoder_last rate =
      Some (Node (a + encoder_last rate) ins).
Proof.
  unfold encoder_nodes, encoder_last, stage_nodes, residual_nodes, stage_last.
  destruct (rate_pos rate); eexists; simpl; repeat (f_equal; try lia).
Qed.

Lemma encoder_layers_last name head_num hidden_dim activation rate :
  encoder_layers name head_num hidden_dim activation rate
    !! encoder_last rate =
  Some (Layer ((name +:+ "-FeedForward") +:+ "-Add") Add).
Proof.
  unfold encoder_layers, encoder_last, stage_layers, residual_layers,
    stage_last.
  by destruct (rate_pos rate).
Qed.

(** X14.  A stack of depth at least one returns the tensor produced by the
    residual sum that ends its last block, [<Role>-<depth>-FeedForward-Add],
    and that tensor is the last node the call creates. *)
Theorem stack_returns_last_block depth input_layer encoded_layer head_num
    hidden_dim activation dropout_rate g :
  (0 < depth)%Z ->
  (exists out g' ins,
     get_encoders depth input_layer head_num hidden_dim activation
       dropout_rate g = Some (out, g') /\
     producer g' out =
       Some (Layer ((("Encoder-" +:+ pretty depth) +:+ "-FeedForward")
                    +:+ "-Add") Add, ins) /\
     S out = length (nodes g')) /\
  (exists out g' ins,
     get_decoders depth input_layer encoded_layer head_num hidden_dim
       activation dropout_rate g = Some (out, g') /\
     producer g' out =
       Some (Layer ((("Decoder-" +:+ pretty depth) +:+ "-FeedForward")
                    +:+ "-Add") Add, ins) /\
     S out = length (nodes g')).
Proof.
  intros Hn. destruct (Z.to_nat depth) as [|k] eqn:Hk; [lia|].
  assert (Hname : forall R : string,
            R +:+ pretty (depth - 1 + 1)%Z = R +:+ pretty depth)
    by (intros; do 2 f_equal; lia).
  split.
  - destruct (encoder_nodes_last
                (length (layers g) + k * S (encoder_last dropout_rate))
                (length (nodes g) + k * S (encoder_last dropout_rate))
                (stack_out (encoder_last dropout_rate) k (length (nodes g))
                   input_layer) dropout_rate) as [ins Hins].
    eexists _, _, ins. split; [apply get_encoders_run|].
    rewrite Hk. cbn [stack_out]. split.
    + rewrite <- Nat.add_assoc.
      eapply producer_new with
        (j := k * S (encoder_last dropout_rate) + encoder_last dropout_rate).
      * rewrite stack_nodes_last by (intros; apply encoder_nodes_length).
        exact Hins.
      * lia.
      * unfold encoder_stack_layers.
        replace k with (Z.to_nat depth - 1) by lia.
        rewrite stack_layers_last
          by (first [done | intros; apply encoder_layers_length]).
        by rewrite encoder_layers_last, Hname.
    + rewrite nodes_extend, length_app, encoder_stack_nodes_length. lia.
  - destruct (decoder_nodes_last
                (length (layers g) + k * S (decoder_last dropout_rate))
                (length (nodes g) + k * S (decoder_last dropout_rate))
                (stack_out (decoder_last dropout_rate) k (length (nodes g))
                   input_layer) encoded_layer dropout_rate) as [ins Hins].
    eexists _, _, ins. split; [apply get_decoders_run|].
    rewrite Hk. cbn [stack_out]. split.
    + rewrite <- Nat.add_assoc.
      eapply producer_new with
        (j := k * S (decoder_last dropout_rate) + decoder_last dropout_rate).
      * rewrite stack_nodes_last by (intros; apply decoder_nodes_length).
        exact Hins.
      * lia.
      * unfold decoder_stack_layers.
        replace k with (Z.to_nat depth - 1) by lia.
        rewrite stack_layers_last
          by (first [done | intros; apply decoder_layers_length]).
        by rewrite decoder_layers_last, Hname.
    + rewrite nodes_extend, length_app, decoder_stack_nodes_length. lia.
Qed.

Lemma stack_returns_last_block_witness :
  exists out g' ins,
    get_encoders 3 0 4 32 "relu" (S754_zero false)
      (Graph [Layer "In" InputLayer] [Node 0 (Multi [])]) = Some (out, g') /\
    producer g' out = Some (Layer "Encoder-3-FeedForward-Add" Add, ins) /\
    S out = length (nodes g').
Proof.
  destruct (stack_returns_last_block 3 0 0 4 32 "relu" (S754_zero false)
              (Graph [Layer "In" InputLayer] [Node 0 (Multi [])]))
    as [Henc _]; [lia|]. exact Henc.
Defined.

(** ** The encoder output in the assembled model *)

Lemma stack_filter_nil (p : node -> bool) block last n a b x :
  (forall a b x, List.filter p (block a b x) = []) ->
  List.filter p (stack_nodes block last n a b x) = [].
Proof.
  intros Hblock. revert a b x.
  induction n as [|n IH]; intros a b x; [done|].
  cbn [stack_nodes]. by rewrite List.filter_app, Hblock, IH.
Qed.

Lemma encoder_nodes_no_triple a b x rate :
  List.filter is_triple (encoder_nodes a b x rate) = [].
Proof.
  unfold encoder_nodes, stage_nodes, residual_nodes, stage_last.
  by destruct (rate_pos rate).
Qed.

Lemma model_nodes_triples encoder_num decoder_num rate a b :
  List.filter is_triple (model_nodes encoder_num decoder_num rate a b) =
  List.filter is_triple
    (stack_nodes
       (fun a' b' x =>
          decoder_nodes a' b' x (encoded_pos b encoder_num rate) rate)
       (decoder_last rate) (Z.to_nat decoder_num)
       (a + decoder_input_pos encoder_num rate + 2)
       (b + decoder_input_pos encoder_num rate + 3)
       (b + decoder_input_pos encoder_num rate + 2)).
Proof.
  unfold model_nodes. cbv zeta. rewrite !List.filter_app.
  rewrite (stack_filter_nil is_triple
             (fun a b x => encoder_nodes a b x rate))
    by (intros; apply encoder_nodes_no_triple).
  cbn [List.filter is_triple node_inputs app]. by rewrite app_nil_r.
Qed.

Lemma model_encoded_producer token_num embed_dim encoder_num decoder_num
    head_num hidden_dim activation rate embed_weights embed_trainable g :
  (0 < encoder_num)%Z ->
  exists ins,
    producer
      (extend g
         (model_layers token_num embed_dim encoder_num decoder_num head_num
            hidden_dim activation rate embed_weights embed_trainable)
         (model_nodes encoder_num decoder_num rate (length (layers g))
            (length (nodes g))))
      (encoded_pos (length (nodes g)) encoder_num rate) =
    Some (Layer ((("Encoder-" +:+ pretty encoder_num) +:+ "-FeedForward")
                 +:+ "-Add") Add, ins).
Proof.
  intros Hn. destruct (Z.to_nat encoder_num) as [|k] eqn:Hk; [lia|].
  set (el := encoder_last rate).
  destruct (encoder_nodes_last
              (length (layers g) + 3 + k * S el)
              (length (nodes g) + 3 + k * S el)
              (stack_out el k (length (nodes g) + 3)
                 (length (nodes g) + encoder_embed_pos)) rate)
    as [ins Hins].
  exists ins. unfold encoded_pos. rewrite Hk. cbn [stack_out]. fold el.
  replace (length (nodes g) + 3 + k * S el + el)
    with (length (nodes g) + (3 + (k * S el + el))) by lia.
  eapply producer_new with (j := 3 + (k * S el + el)).
  - unfold model_nodes. cbv zeta. rewrite Hk.
    cbn [app lookup list_lookup Nat.add].
    apply lookup_app_l_Some.
    rewrite stack_nodes_last by (intros; apply encoder_nodes_length).
    exact Hins.
  - lia.
  - subst el. unfold model_layers. cbn [app lookup list_lookup Nat.add].
    apply lookup_app_l_Some. unfold encoder_stack_layers.
    replace k with (Z.to_nat encoder_num - 1) by lia.
    rewrite stack_layers_last
      by (first [done | intros; apply encoder_layers_length]).
    rewrite encoder_layers_last. do 6 f_equal. lia.
Qed.

(** X15.  In the assembled model every decoder block attends to the
    encoder stack's output: the calls on three tensors are one per decoder
    block, each with the same tensor [encoded] as key and as value.  That
    tensor is the residual sum ending the last encoder block, or, when
    [encoder_num <= 0], the positionally encoded encoder input itself. *)
Theorem model_decoders_read_encoder_output token_num embed_dim encoder_num
    decoder_num head_num hidden_dim activation dropout_rate embed_weights
    embed_trainable g :
  exists m g' encoded,
    get_model token_num embed_dim encoder_num decoder_num head_num hidden_dim
      activation dropout_rate embed_weights embed_trainable g
      = Some (m, g') /\
    Forall (fun nd => exists q, node_inputs nd = Multi [q; encoded; encoded])
      (List.filter is_triple (drop (length (nodes g)) (nodes g'))) /\
    length (List.filter is_triple (drop (length (nodes g)) (nodes g'))) =
      Z.to_nat decoder_num /\
    ((0 < encoder_num)%Z ->
       exists ins,
         producer g' encoded =
           Some (Layer ((("Encoder-" +:+ pretty encoder_num)
                         +:+ "-FeedForward") +:+ "-Add") Add, ins)) /\
    ((encoder_num <= 0)%Z ->
       exists ins,
         producer g' encoded =
           Some (Layer "Encoder-Embedding" (TrigPosEmbedding MODE_ADD),
                 ins)).
Proof.
  eexists _, _, (encoded_pos (length (nodes g)) encoder_num dropout_rate).
  split; [apply get_model_run|].
  rewrite drop_extend_nodes, model_nodes_triples.
  split; [apply stack_triples|]. split; [apply stack_triples|]. split.
  - intros Hn. by apply model_encoded_producer.
  - intros Hn. eexists. unfold encoded_pos, encoder_embed_pos.
    replace (Z.to_nat encoder_num) with 0 by lia. cbn [stack_out].
    eapply producer_new with (j := 2); [|reflexivity|done]. done.
Qed.

Lemma model_decoders_read_encoder_output_witness :
  exists m g' encoded ins,
    get_model 1000 16 2 2 4 32 "relu" (S754_zero false) None None empty_graph
      = Some (m, g') /\
    Forall (fun nd => exists q, node_inputs nd = Multi [q; encoded; encoded])
      (List.filter is_triple (drop 0 (nodes g'))) /\
    producer g' encoded = Some (Layer "Encoder-2-FeedForward-Add" Add, ins).
Proof.
  destruct (model_decoders_read_encoder_output 1000 16 2 2 4 32 "relu"
              (S754_zero false) None None empty_graph)
    as (m & g' & encoded & Hrun & Hall & _ & Hpos & _).
  destruct Hpos as [ins Hins]; [lia|].
  exists m, g', encoded, ins. split; [exact Hrun|]. split; [exact Hall|].
  exact Hins.
Defined.
